(** * Thermal guard of hw-monitor: [app/api/thermal-shutdown/route.ts]

    A shallow embedding of the thermal-shutdown route: the in-memory
    [ThermalConfig] singleton, [checkAndTriggerShutdown] (called by the
    system route on every poll) and the [GET], [POST] and [DELETE] handlers.
    Around it: the temperature cache and the resolution of the readings in
    the system route, the handlers of the dashboard that post to the thermal
    route, and the power route.

    JavaScript numbers are IEEE 754 doubles: they are modelled by Rocq's
    primitive [float], so [>=] and [<=] below are the comparisons the
    engine performs (a comparison with NaN is false).  Calls are taken
    one after another, each a step on the process state; in
    [checkAndTriggerShutdown] the test of [triggered] and the write of the
    incident both come before the first [await], so two polls cannot both
    pass the test.  Console output is left out. *)

From Stdlib Require Import Floats ZArith List Ascii String.
From stdpp Require Import base option list strings gmap.
Import ListNotations.

#[local] Set Warnings "-register-all".
#[local] Open Scope string_scope.

(** ** JavaScript values *)

Module JS.

(** [x >= y] and [x <= y] on numbers. *)
Definition num_ge (x y : float) : bool := PrimFloat.leb y x.
Definition num_le (x y : float) : bool := PrimFloat.leb x y.
(** [x == y] on numbers. *)
Definition num_eq (x y : float) : bool := PrimFloat.eqb x y.

(** What [JSON.parse] (behind [request.json()]) can return.  A repeated key
    keeps its last value, so an object is a finite map. *)
Inductive json : Type :=
| JNull
| JBool (b : bool)
| JNum (x : float)
| JStr (s : string)
| JArr (l : list json)
| JObj (m : gmap string json).

Inductive exn : Type :=
| SyntaxError   (* the body is not JSON *)
| TypeError     (* property read on null *)
| ExecError.    (* the child process failed or timed out *)

(** [body.k], for the keys the route reads: a property of [null] cannot be
    read; a primitive or an array has none of these keys ([None] is
    [undefined]); an object has it when the key is its own. *)
Definition prop (body : json) (k : string) : exn + option json :=
  match body with
  | JNull => inl TypeError
  | JObj m => inr (m !! k)
  | _ => inr None
  end.

(** [typeof v === 'boolean'] and [typeof v === 'number'], with the value. *)
Definition as_boolean (v : option json) : option bool :=
  match v with Some (JBool b) => Some b | _ => None end.
Definition as_number (v : option json) : option float :=
  match v with Some (JNum x) => Some x | _ => None end.

(** A string used as a condition: the empty string is falsy. *)
Definition truthy (s : string) : bool :=
  match s with EmptyString => false | _ => true end.

(** [s.toUpperCase()] on ASCII text. *)
Definition upper_ascii (a : ascii) : ascii :=
  let n := nat_of_ascii a in
  if andb (Nat.leb 97 n) (Nat.leb n 122) then ascii_of_nat (n - 32) else a.
Fixpoint toUpperCase (s : string) : string :=
  match s with
  | EmptyString => EmptyString
  | String a r => String (upper_ascii a) (toUpperCase r)
  end.

(** [s.includes(sub)]. *)
Definition includes (s sub : string) : bool :=
  match String.index 0 sub s with Some _ => true | None => false end.

(** [tags.join(sep)]. *)
Definition join (sep : string) (tags : list string) : string :=
  String.concat sep tags.

End JS.
Import JS.

(** ** The configuration singleton *)

Record ThermalConfig : Type := mkConfig {
  enabled : bool;
  cpuThreshold : float;
  gpuThreshold : float;
  mbThreshold : float;
  shutdownDelay : float;
  triggered : bool;
  (** [Date.now()] is a whole number of milliseconds. *)
  triggeredAt : option Z;
  triggeredBy : option string;
  triggeredTemp : option float
}.

Definition defaultConfig : ThermalConfig := {|
  enabled := false;
  cpuThreshold := 80;
  gpuThreshold := 85;
  mbThreshold := 75;
  shutdownDelay := 60;
  triggered := false;
  triggeredAt := None;
  triggeredBy := None;
  triggeredTemp := None
|}.

(** One property of a [Partial<ThermalConfig>] object literal. *)
Inductive Field : Type :=
| Enabled (b : bool)
| CpuThreshold (x : float)
| GpuThreshold (x : float)
| MbThreshold (x : float)
| ShutdownDelay (x : float)
| Triggered (b : bool)
| TriggeredAt (t : option Z)
| TriggeredBy (s : option string)
| TriggeredTemp (x : option float).

Definition assign (c : ThermalConfig) (f : Field) : ThermalConfig :=
  match f with
  | Enabled b => mkConfig b (cpuThreshold c) (gpuThreshold c) (mbThreshold c)
      (shutdownDelay c) (triggered c) (triggeredAt c) (triggeredBy c) (triggeredTemp c)
  | CpuThreshold x => mkConfig (enabled c) x (gpuThreshold c) (mbThreshold c)
      (shutdownDelay c) (triggered c) (triggeredAt c) (triggeredBy c) (triggeredTemp c)
  | GpuThreshold x => mkConfig (enabled c) (cpuThreshold c) x (mbThreshold c)
      (shutdownDelay c) (triggered c) (triggeredAt c) (triggeredBy c) (triggeredTemp c)
  | MbThreshold x => mkConfig (enabled c) (cpuThreshold c) (gpuThreshold c) x
      (shutdownDelay c) (triggered c) (triggeredAt c) (triggeredBy c) (triggeredTemp c)
  | ShutdownDelay x => mkConfig (enabled c) (cpuThreshold c) (gpuThreshold c) (mbThreshold c)
      x (triggered c) (triggeredAt c) (triggeredBy c) (triggeredTemp c)
  | Triggered b => mkConfig (enabled c) (cpuThreshold c) (gpuThreshold c) (mbThreshold c)
      (shutdownDelay c) b (triggeredAt c) (triggeredBy c) (triggeredTemp c)
  | TriggeredAt t => mkConfig (enabled c) (cpuThreshold c) (gpuThreshold c) (mbThreshold c)
      (shutdownDelay c) (triggered c) t (triggeredBy c) (triggeredTemp c)
  | TriggeredBy s => mkConfig (enabled c) (cpuThreshold c) (gpuThreshold c) (mbThreshold c)
      (shutdownDelay c) (triggered c) (triggeredAt c) s (triggeredTemp c)
  | TriggeredTemp x => mkConfig (enabled c) (cpuThreshold c) (gpuThreshold c) (mbThreshold c)
      (shutdownDelay c) (triggered c) (triggeredAt c) (triggeredBy c) x
  end.

(** [{ ...config, ...partial }]: the properties of [partial] overwrite those
    of the copy, in order. *)
Definition spread (c : ThermalConfig) (partial : list Field) : ThermalConfig :=
  fold_left assign partial c.

(** ** The outside world *)

(** The text shown by [shutdown /c], kept as the four values the template
    literal interpolates. *)
Record Message : Type := mkMessage {
  msgReason : string;
  msgTemp : float;
  msgThreshold : float;
  msgDelay : float
}.

(** The command lines given to [execAsync]. *)
Inductive Command : Type :=
| ShutdownCmd (delay : float) (message : Message)   (* shutdown /s /t delay /c message *)
| AbortCmd.                                           (* shutdown /a *)

(** The process state: [globalThis.__thermalConfig] and the commands handed
    to the operating system so far, oldest first, each with its outcome. *)
Record World : Type := mkWorld {
  config : ThermalConfig;
  issued : list (Command * bool)
}.

Definition initWorld : World := mkWorld (spread defaultConfig []) [].

(** ** A state and exception monad for the handlers *)

Definition M (A : Type) : Type := World -> (exn + A) * World.

Definition ret {A} (a : A) : M A := fun w => (inr a, w).
Definition bind {A B} (m : M A) (k : A -> M B) : M B :=
  fun w => match m w with
           | (inr a, w') => k a w'
           | (inl e, w') => (inl e, w')
           end.
Definition try_catch {A} (m : M A) (h : exn -> M A) : M A :=
  fun w => match m w with
           | (inr a, w') => (inr a, w')
           | (inl e, w') => h e w'
           end.
Definition lift {A} (r : exn + A) : M A := fun w => (r, w).

Notation "x <- m ;; k" := (bind m (fun x => k))
  (at level 100, m at next level, right associativity).
Notation "m ;;; k" := (bind m (fun _ => k))
  (at level 100, right associativity).

Definition getConfig : M ThermalConfig := fun w => (inr (config w), w).

Definition setConfig (partial : list Field) : M unit :=
  fun w => (inr tt, mkWorld (spread (config w) partial) (issued w)).

(** [await execAsync(cmd, { timeout })]: the command is handed over, and the
    promise rejects when [ok] is false. *)
Definition execAsync (ok : bool) (cmd : Command) : M unit :=
  fun w => (if ok then inr tt else inl ExecError,
            mkWorld (config w) (issued w ++ [(cmd, ok)])).

(** The state a handler leaves behind. *)
Definition exec {A} (m : M A) (w : World) : World := snd (m w).
Definition result {A} (m : M A) (w : World) : exn + A := fst (m w).

(** ** checkAndTriggerShutdown *)

(** The three locals of the function. *)
Record Verdict : Type := mkVerdict {
  shouldShutdown : bool;
  reason : string;
  triggerTemp : float
}.

Definition check_cpu (c : ThermalConfig) (cpuTemp : option float) (v : Verdict) : Verdict :=
  match cpuTemp with
  | Some t => if num_ge t (cpuThreshold c) then mkVerdict true "cpu" t else v
  | None => v
  end.

Definition check_gpu (c : ThermalConfig) (gpuTemp : option float) (v : Verdict) : Verdict :=
  match gpuTemp with
  | Some t =>
      if num_ge t (gpuThreshold c)
      then mkVerdict true (if truthy (reason v) then reason v ++ "+gpu" else "gpu") t
      else v
  | None => v
  end.

Definition check_mb (c : ThermalConfig) (mbTemp : option float) (v : Verdict) : Verdict :=
  match mbTemp with
  | Some t =>
      if num_ge t (mbThreshold c)
      then mkVerdict true (if truthy (reason v) then reason v ++ "+mb" else "mb") t
      else v
  | None => v
  end.

Definition verdict (c : ThermalConfig) (cpuTemp gpuTemp mbTemp : option float) : Verdict :=
  check_mb c mbTemp (check_gpu c gpuTemp (check_cpu c cpuTemp (mkVerdict false "" 0))).

Definition shutdownMessage (c : ThermalConfig) (v : Verdict) : Message := {|
  msgReason := toUpperCase (reason v);
  msgTemp := triggerTemp v;
  msgThreshold := if includes (reason v) "cpu" then cpuThreshold c else gpuThreshold c;
  msgDelay := shutdownDelay c
|}.

(** [now] is what [Date.now()] returns during the call and [ok] whether the
    shutdown command succeeds. *)
Definition checkAndTriggerShutdown (now : Z) (ok : bool)
    (cpuTemp gpuTemp mbTemp : option float) : M unit :=
  c <- getConfig ;;
  if negb (enabled c) || triggered c then ret tt else
  let v := verdict c cpuTemp gpuTemp mbTemp in
  if shouldShutdown v then
    setConfig [Triggered true; TriggeredAt (Some now);
               TriggeredBy (Some (reason v)); TriggeredTemp (Some (triggerTemp v))] ;;;
    try_catch
      (execAsync ok (ShutdownCmd (shutdownDelay c) (shutdownMessage c v)))
      (fun _ => ret tt)
  else ret tt.

(** ** The route handlers *)

Inductive Response : Type :=
| Json (c : ThermalConfig)     (* NextResponse.json(getConfig()) *)
| InvalidRequestBody.          (* status 400 *)

Definition GET : M Response :=
  c <- getConfig ;; ret (Json c).

Definition in_range (lo hi : float) (v : option json) : option float :=
  match as_number v with
  | Some x => if num_ge x lo && num_le x hi then Some x else None
  | None => None
  end.

(** [when o f]: [if (o holds) setConfig({ f: value })]. *)
Definition when {A} (o : option A) (f : A -> Field) : M unit :=
  match o with Some a => setConfig [f a] | None => ret tt end.

(** [request] is the parsed body, or [None] when [request.json()] rejects. *)
Definition POST (request : option json) : M Response :=
  try_catch
    (body <- lift (match request with Some b => inr b | None => inl SyntaxError end) ;;
     _ <- getConfig ;;
     v <- lift (prop body "enabled") ;;
     when (as_boolean v) Enabled ;;;
     v <- lift (prop body "cpuThreshold") ;;
     when (in_range 30 120 v) CpuThreshold ;;;
     v <- lift (prop body "gpuThreshold") ;;
     when (in_range 30 120 v) GpuThreshold ;;;
     v <- lift (prop body "mbThreshold") ;;
     when (in_range 30 120 v) MbThreshold ;;;
     v <- lift (prop body "shutdownDelay") ;;
     when (in_range 10 300 v) ShutdownDelay ;;;
     c <- getConfig ;;
     ret (Json c))
    (fun _ => ret InvalidRequestBody).

(** [ok] is whether [shutdown /a] succeeds. *)
Definition DELETE (ok : bool) : M Response :=
  try_catch (execAsync ok AbortCmd) (fun _ => ret tt) ;;;
  setConfig [Triggered false; TriggeredAt None; TriggeredBy None; TriggeredTemp None] ;;;
  c <- getConfig ;;
  ret (Json c).

(** ** Polls and requests in sequence *)

Inductive Call : Type :=
| Evaluate (now : Z) (ok : bool) (cpuTemp gpuTemp mbTemp : option float)
| Update (request : option json)
| Cancel (ok : bool).

Definition step (w : World) (call : Call) : World :=
  match call with
  | Evaluate now ok cpuTemp gpuTemp mbTemp =>
      exec (checkAndTriggerShutdown now ok cpuTemp gpuTemp mbTemp) w
  | Update request => exec (POST request) w
  | Cancel ok => exec (DELETE ok) w
  end.

Definition run (calls : list Call) (w : World) : World := fold_left step calls w.

Definition is_evaluate (call : Call) : bool :=
  match call with Evaluate _ _ _ _ _ => true | _ => false end.

Definition is_shutdown (e : Command * bool) : bool :=
  match fst e with ShutdownCmd _ _ => true | AbortCmd => false end.
Definition is_abort (e : Command * bool) : bool :=
  match fst e with AbortCmd => true | ShutdownCmd _ _ => false end.

(** How many shutdown requests, and how many aborts, were handed over. *)
Definition shutdowns (l : list (Command * bool)) : nat :=
  length (List.filter is_shutdown l).
Definition aborts (l : list (Command * bool)) : nat :=
  length (List.filter is_abort l).

(** ** The vocabulary of the specification *)

Inductive Metric : Type := Cpu | Gpu | Mb.

Definition evaluation_order : list Metric := [Cpu; Gpu; Mb].

Definition tag (m : Metric) : string :=
  match m with Cpu => "cpu" | Gpu => "gpu" | Mb => "mb" end.

Definition thresholdOf (c : ThermalConfig) (m : Metric) : float :=
  match m with
  | Cpu => cpuThreshold c
  | Gpu => gpuThreshold c
  | Mb => mbThreshold c
  end.

Definition readingOf (cpuTemp gpuTemp mbTemp : option float) (m : Metric) : option float :=
  match m with Cpu => cpuTemp | Gpu => gpuTemp | Mb => mbTemp end.

(** A metric trips when it is present and at or above its threshold. *)
Definition trips (c : ThermalConfig) (m : Metric) (reading : option float) : bool :=
  match reading with
  | Some t => num_ge t (thresholdOf c m)
  | None => false
  end.

(** The metrics that trip in a tick, in evaluation order, with their values. *)
Definition spec_tripped (c : ThermalConfig) (cpuTemp gpuTemp mbTemp : option float)
    : list (Metric * float) :=
  omap (fun m => match readingOf cpuTemp gpuTemp mbTemp m with
                 | Some t => if num_ge t (thresholdOf c m) then Some (m, t) else None
                 | None => None
                 end) evaluation_order.

(** The reason string as the specification words it. *)
Definition spec_reason (c : ThermalConfig) (cpuTemp gpuTemp mbTemp : option float) : string :=
  join "+" (map (fun p => tag (fst p)) (spec_tripped c cpuTemp gpuTemp mbTemp)).

(** The value of the metric that matched first, and of the one that matched last. *)
Definition spec_first_temp (c : ThermalConfig) (cpuTemp gpuTemp mbTemp : option float)
    : option float :=
  snd <$> head (spec_tripped c cpuTemp gpuTemp mbTemp).
Definition spec_last_temp (c : ThermalConfig) (cpuTemp gpuTemp mbTemp : option float)
    : option float :=
  snd <$> last (spec_tripped c cpuTemp gpuTemp mbTemp).

(** The incident record and the invariant that ties it to the flag. *)
Definition incident (c : ThermalConfig) : bool * option Z * option string * option float :=
  (triggered c, triggeredAt c, triggeredBy c, triggeredTemp c).

Definition incident_inv (c : ThermalConfig) : Prop :=
  triggered c = false <->
  triggeredAt c = None /\ triggeredBy c = None /\ triggeredTemp c = None.

(** The policy part of the configuration. *)
Definition policy (c : ThermalConfig) : bool * float * float * float * float :=
  (enabled c, cpuThreshold c, gpuThreshold c, mbThreshold c, shutdownDelay c).

(** The update the specification describes: each recognised field of the
    body is taken when it has the right type and lies in its range, and kept
    as it was otherwise; everything else in the body is ignored. *)
Definition field (body : json) (k : string) : option json :=
  match body with JObj m => m !! k | _ => None end.

Definition spec_update (c : ThermalConfig) (body : json) : ThermalConfig := {|
  enabled := default (enabled c) (as_boolean (field body "enabled"));
  cpuThreshold := default (cpuThreshold c) (in_range 30 120 (field body "cpuThreshold"));
  gpuThreshold := default (gpuThreshold c) (in_range 30 120 (field body "gpuThreshold"));
  mbThreshold := default (mbThreshold c) (in_range 30 120 (field body "mbThreshold"));
  shutdownDelay := default (shutdownDelay c) (in_range 10 300 (field body "shutdownDelay"));
  triggered := triggered c;
  triggeredAt := triggeredAt c;
  triggeredBy := triggeredBy c;
  triggeredTemp := triggeredTemp c
|}.

Definition is_cancel (call : Call) : bool :=
  match call with Cancel _ => true | _ => false end.

(** ** Observations on states and command logs *)

(** [lo <= x && x <= hi]. *)
Definition within (lo hi x : float) : bool := num_ge x lo && num_le x hi.

(** The ranges the update handler checks, taken over the whole policy. *)
Definition policy_in_bounds (c : ThermalConfig) : bool :=
  within 30 120 (cpuThreshold c) && within 30 120 (gpuThreshold c) &&
  within 30 120 (mbThreshold c) && within 10 300 (shutdownDelay c).

Definition is_update (call : Call) : bool :=
  match call with Update _ => true | _ => false end.

(** The delays of the shutdown commands in a log, oldest first. *)
Definition shutdown_delays (l : list (Command * bool)) : list float :=
  omap (fun e => match fst e with
                 | ShutdownCmd d _ => Some d
                 | AbortCmd => None
                 end) l.


(** ** The system route: where the readings come from

    [app/api/system/route.ts] gathers the temperatures and calls
    [checkAndTriggerShutdown] at the end of every [GET].  What the sensor
    library, the PowerShell script and the WMI query report are inputs
    here, typed as the route types them ([number | null]). *)

Module SystemRoute.

(** A number used as a condition: [0], [-0] and NaN are falsy. *)
Definition num_truthy (x : float) : bool :=
  negb (PrimFloat.is_nan x || PrimFloat.is_zero x).

(** A [number | null | undefined] used as a condition. *)
Definition present (o : option float) : bool :=
  match o with Some x => num_truthy x | None => false end.

(** [o === null]. *)
Definition is_null (o : option float) : bool :=
  match o with Some _ => false | None => true end.

(** [a || b] and [a || null]. *)
Definition or_else (a b : option float) : option float :=
  if present a then a else b.
Definition or_null (a : option float) : option float :=
  if present a then a else None.

Record Temps : Type := mkTemps {
  cpu : option float;
  gpu : option float;
  mb : option float
}.

Definition noTemps : Temps := mkTemps None None None.

(** [tempCache]. *)
Record TempCache : Type := mkCache {
  cached : Temps;
  ts : Z
}.

Definition initCache : TempCache := mkCache noTemps 0.

Definition CACHE_TTL_MS : Z := 2500.

(** What one PowerShell process leaves on its standard output, after
    [trim()] and [JSON.parse]: nothing, text that does not parse, or the
    object [read_temps.ps1] prints, whose [cpu_temp], [gpu_temp] and
    [mb_temp] are each a number or null. *)
Inductive Stdout : Type :=
| Blank
| Garbled
| Printed (cpu_temp gpu_temp mb_temp : option float).

(** One attempt to run the script: the 64-bit PowerShell and the fallback
    that is started when the first rejects; [None] is a rejected promise. *)
Record ScriptRun : Type := mkRun {
  ps64 : option Stdout;
  psFallback : option Stdout
}.

(** The output that counts: that of the first process that did not reject. *)
Definition finalStdout (run : ScriptRun) : option Stdout :=
  match ps64 run with Some out => Some out | None => psFallback run end.

(** The end of [readTempsViaDll] once a process has produced [out];
    [started] counts the processes started. *)
Definition afterStdout (now : Z) (out : Stdout) (c : TempCache) (started : nat)
    : Temps * TempCache * nat :=
  match out with
  | Blank => (noTemps, c, started)
  | Garbled => (noTemps, c, started)
  | Printed cpu_temp gpu_temp mb_temp =>
      let c' := mkCache (mkTemps cpu_temp gpu_temp mb_temp) now in
      (cached c', c', started)
  end.

(** [readTempsViaDll], with the reading of [Date.now()], the behaviour of
    the script and [tempCache] as arguments: the temperatures returned, the
    cache afterwards and the number of processes started. *)
Definition readTempsViaDll (now : Z) (run : ScriptRun) (c : TempCache)
    : Temps * TempCache * nat :=
  if (now - ts c <? CACHE_TTL_MS)%Z then (cached c, c, 0)
  else match ps64 run with
       | Some out => afterStdout now out c 1
       | None =>
           match psFallback run with
           | Some out => afterStdout now out c 2
           | None => (noTemps, c, 2)
           end
       end.

(** What [si.cpuTemperature()] and [si.graphics()] contribute: [temp.main],
    [temp.cores] and the [temperatureGpu] of each controller. *)
Record SiReadings : Type := mkSi {
  main : option float;
  cores : list float;
  controllers : list (option float)
}.

(** Step 1 of [GET]: the first values of [resolvedCpuTemp] and
    [resolvedGpuTemps]. *)
Definition nativeCpuTemp (si : SiReadings) : option float :=
  or_null (or_else (main si) (head (cores si))).

Definition resolvedGpuTemps (si : SiReadings) : list (option float) :=
  map or_null (controllers si).

(** The condition of step 3: is [getWmiTemperatures] called? *)
Definition asksWmi (si : SiReadings) (dll : Temps) : bool :=
  negb (present (cpu dll)) && negb (present (gpu dll)) &&
  (is_null (nativeCpuTemp si) || forallb is_null (resolvedGpuTemps si)).

(** [dllTemps] after step 3; [wmi] is what [getWmiTemperatures] returns. *)
Definition dllTemps (si : SiReadings) (dll : Temps) (wmi : option float * option float)
    : Temps :=
  if asksWmi si dll then
    mkTemps (if present (fst wmi) && negb (present (nativeCpuTemp si))
             then fst wmi else cpu dll)
            (if present (snd wmi) then snd wmi else gpu dll)
            (mb dll)
  else dll.

(** [resolvedCpuTemp] when the response is built. *)
Definition resolvedCpuTemp (si : SiReadings) (dll : Temps) (wmi : option float * option float)
    : option float :=
  if negb (present (nativeCpuTemp si)) && present (cpu (dllTemps si dll wmi))
  then cpu (dllTemps si dll wmi)
  else nativeCpuTemp si.

(** [data.graphics.map(g => g.temperature)]. *)
Definition graphicsTemperatures (si : SiReadings) (dll : Temps)
    (wmi : option float * option float) : list (option float) :=
  map (fun g => or_null (or_else g (gpu (dllTemps si dll wmi)))) (controllers si).

(** [data.graphics[0]?.temperature ?? null] and
    [data.motherboard.temperature ?? null]. *)
Definition finalGpuTemp (si : SiReadings) (dll : Temps) (wmi : option float * option float)
    : option float :=
  match head (graphicsTemperatures si dll wmi) with
  | Some t => t
  | None => None
  end.



(** The first usable value of a list of candidates. *)
Definition first_present (l : list (option float)) : option float :=
  match List.filter present l with
  | x :: _ => x
  | [] => None
  end.

End SystemRoute.

(** ** The dashboard: what the page sends

    The handlers of [app/page.tsx] that post to the thermal route.  A
    request is taken to reach the server. *)

Module Dashboard.










End Dashboard.

(** ** The power route

    [app/api/power/route.ts]: shutdown, reboot and cancel on request.  The
    built-in [parseInt] is a parameter, and so is the [TypeError] the engine
    raises when [null] is destructured. *)

Module PowerRoute.

Definition is_neg_zero (x : float) : bool :=
  PrimFloat.is_zero x && PrimFloat.get_sign x.

(** [Math.min(x, y)] and [Math.max(x, y)]: NaN if either is NaN, and [-0]
    counts as smaller than [+0]. *)
Definition Math_min (x y : float) : float :=
  if PrimFloat.is_nan x || PrimFloat.is_nan y then PrimFloat.nan
  else if PrimFloat.ltb x y then x
  else if PrimFloat.ltb y x then y
  else if is_neg_zero x then x else y.

Definition Math_max (x y : float) : float :=
  if PrimFloat.is_nan x || PrimFloat.is_nan y then PrimFloat.nan
  else if PrimFloat.ltb x y then y
  else if PrimFloat.ltb y x then x
  else if is_neg_zero x then y else x.

(** [Math.max(0, Math.min(300, parsed || 10))], where [parsed] is what
    [parseInt(delay)] returned. *)
Definition safeDelay (parsed : float) : float :=
  Math_max 0 (Math_min 300 (if SystemRoute.num_truthy parsed then parsed else 10)).

(** What a rejected promise or a thrown error carries; a missing [stderr]
    is the empty string. *)
Record Failure : Type := mkFailure {
  stderr : string;
  message : string
}.

(** [error?.stderr || error?.message || 'Unknown error']. *)
Definition errorText (f : Failure) : string :=
  if truthy (stderr f) then stderr f
  else if truthy (message f) then message f
  else "Unknown error".

Inductive PowerCommand : Type :=
| Shutdown (delay : float)     (* shutdown /s /t delay *)
| Reboot (delay : float)       (* shutdown /r /t delay *)
| Abort.                       (* shutdown /a *)

Inductive PowerResponse : Type :=
| Done (action : string) (delay : option float)   (* 200, success: true *)
| NothingPending                                  (* 200, success: false *)
| InvalidAction                                   (* 400 *)
| CommandFailed (details : string).               (* 500 *)

(** The [catch] block. *)
Definition onError (f : Failure) : PowerResponse :=
  let msg := errorText f in
  if includes msg "Unable to abort" || includes msg "unable to abort"
  then NothingPending
  else CommandFailed msg.

(** [await execAsync(cmd)] followed by the answer [done]; [outcome] is the
    rejection of the command, if it is rejected.  The second component is
    the list of commands handed to the operating system. *)
Definition execThen (cmd : PowerCommand) (outcome : option Failure) (done : PowerResponse)
    : PowerResponse * list PowerCommand :=
  match outcome with
  | None => (done, [cmd])
  | Some f => (onError f, [cmd])
  end.

Section Handler.

Variable parseInt : json -> float.
Variable nullBodyError : Failure.

(** [request] is the parsed body, or the error [request.json()] rejects
    with. *)
Definition POST (request : Failure + json) (outcome : option Failure)
    : PowerResponse * list PowerCommand :=
  match request with
  | inl f => (onError f, [])
  | inr JNull => (onError nullBodyError, [])
  | inr body =>
      let action := field body "action" in
      let delay := default (JNum 10) (field body "delay") in
      let safeDelay := safeDelay (parseInt delay) in
      match action with
      | Some (JStr a) =>
          if String.eqb a "shutdown" then
            execThen (Shutdown safeDelay) outcome (Done "shutdown" (Some safeDelay))
          else if String.eqb a "reboot" then
            execThen (Reboot safeDelay) outcome (Done "reboot" (Some safeDelay))
          else if String.eqb a "cancel" then
            execThen Abort outcome (Done "cancel" None)
          else (InvalidAction, [])
      | _ => (InvalidAction, [])
      end
  end.

End Handler.

(** The delay a command asks for, if it has one. *)
Definition delayOf (cmd : PowerCommand) : option float :=
  match cmd with
  | Shutdown d => Some d
  | Reboot d => Some d
  | Abort => None
  end.

Definition is_done (r : PowerResponse) : bool :=
  match r with Done _ _ => true | _ => false end.

End PowerRoute.

(** * Properties *)

(** ** Numbers and strings *)

Example toUpperCase_reason : toUpperCase "cpu+gpu" = "CPU+GPU".
Proof. reflexivity. Qed.

Example includes_cpu :
  includes "cpu+mb" "cpu" = true /\ includes "gpu+mb" "cpu" = false.
Proof. split; reflexivity. Qed.

Example join_tags : join "+" ["cpu"; "gpu"; "mb"] = "cpu+gpu+mb".
Proof. reflexivity. Qed.


Lemma SFcompare_Eq_sym x y :
  SFcompare x y = Some Eq -> SFcompare y x = Some Eq.
Proof.
  destruct x as [sx|sx| |sx mx ex], y as [sy|sy| |sy my ey]; simpl;
    try (destruct sx); try (destruct sy); simpl; try congruence.
  all: rewrite (Z.compare_antisym ex ey); destruct (ex ?= ey)%Z; simpl; try congruence.
  all: fold (Pos.compare mx my); fold (Pos.compare my mx).
  all: rewrite (Pos.compare_antisym mx my); destruct (mx ?= my)%positive; simpl; congruence.
Qed.

(** [x == y] implies [x >= y]. *)
Lemma num_eq_ge x y : num_eq x y = true -> num_ge x y = true.
Proof.
  unfold num_eq, num_ge. rewrite FloatAxioms.eqb_spec, FloatAxioms.leb_spec.
  unfold SFeqb, SFleb. intros H.
  destruct (SFcompare (Prim2SF x) (Prim2SF y)) as [[]|] eqn:E; try discriminate.
  now rewrite (SFcompare_Eq_sym _ _ E).
Qed.

(** ** The evaluation, case by case *)

Lemma verdict_should c cpuTemp gpuTemp mbTemp :
  shouldShutdown (verdict c cpuTemp gpuTemp mbTemp)
  = trips c Cpu cpuTemp || trips c Gpu gpuTemp || trips c Mb mbTemp.
Proof.
  unfold verdict, check_mb, check_gpu, check_cpu, trips; simpl.
  destruct cpuTemp as [a|], gpuTemp as [b|], mbTemp as [d|]; simpl;
    repeat match goal with |- context [num_ge ?x ?y] => destruct (num_ge x y) end;
    reflexivity.
Qed.

(** An armed guard that sees a tripped metric records the incident and hands
    over one shutdown command, whatever the outcome of that command. *)
Lemma check_fires now ok cpuTemp gpuTemp mbTemp w :
  enabled (config w) = true ->
  triggered (config w) = false ->
  shouldShutdown (verdict (config w) cpuTemp gpuTemp mbTemp) = true ->
  exec (checkAndTriggerShutdown now ok cpuTemp gpuTemp mbTemp) w
  = let v := verdict (config w) cpuTemp gpuTemp mbTemp in
    mkWorld (spread (config w)
               [Triggered true; TriggeredAt (Some now);
                TriggeredBy (Some (reason v)); TriggeredTemp (Some (triggerTemp v))])
            (issued w ++ [(ShutdownCmd (shutdownDelay (config w))
                             (shutdownMessage (config w) v), ok)]).
Proof.
  intros He Ht Hs.
  unfold exec, checkAndTriggerShutdown, bind, getConfig; cbv beta iota.
  replace (negb (enabled (config w)) || triggered (config w)) with false
    by (rewrite He, Ht; reflexivity).
  cbv zeta. rewrite Hs.
  destruct ok; reflexivity.
Qed.

(** Otherwise the call returns at once and the world is the same. *)
Lemma check_idle now ok cpuTemp gpuTemp mbTemp w :
  enabled (config w) = false \/ triggered (config w) = true \/
  shouldShutdown (verdict (config w) cpuTemp gpuTemp mbTemp) = false ->
  exec (checkAndTriggerShutdown now ok cpuTemp gpuTemp mbTemp) w = w.
Proof.
  intros H.
  unfold exec, checkAndTriggerShutdown, bind, getConfig; simpl.
  destruct (enabled (config w)), (triggered (config w)); simpl; try reflexivity.
  destruct H as [H|[H|H]]; try discriminate. now rewrite H.
Qed.

Lemma shutdowns_app l1 l2 : shutdowns (l1 ++ l2) = shutdowns l1 + shutdowns l2.
Proof. unfold shutdowns. now rewrite List.filter_app, length_app. Qed.

Lemma aborts_app l1 l2 : aborts (l1 ++ l2) = aborts l1 + aborts l2.
Proof. unfold aborts. now rewrite List.filter_app, length_app. Qed.

(** ** Inclusive thresholds *)

(** C6: whichever metric it is, a present reading equal to its configured
    threshold trips an armed guard: the incident is recorded and one shutdown
    command is handed over. *)
Theorem threshold_is_inclusive now ok cpuTemp gpuTemp mbTemp w m t :
  enabled (config w) = true ->
  triggered (config w) = false ->
  readingOf cpuTemp gpuTemp mbTemp m = Some t ->
  num_eq t (thresholdOf (config w) m) = true ->
  trips (config w) m (readingOf cpuTemp gpuTemp mbTemp m) = true /\
  let w' := exec (checkAndTriggerShutdown now ok cpuTemp gpuTemp mbTemp) w in
  triggered (config w') = true /\
  shutdowns (issued w') = S (shutdowns (issued w)).
Proof.
  intros He Ht Hr Heq.
  assert (Htrip : trips (config w) m (readingOf cpuTemp gpuTemp mbTemp m) = true).
  { rewrite Hr. simpl. now apply num_eq_ge. }
  split; [exact Htrip|].
  assert (Hs : shouldShutdown (verdict (config w) cpuTemp gpuTemp mbTemp) = true).
  { rewrite verdict_should. destruct m; simpl in Htrip; rewrite Htrip;
      rewrite ?orb_true_r; reflexivity. }
  simpl. rewrite (check_fires now ok _ _ _ w He Ht Hs). simpl.
  split; [reflexivity|].
  rewrite shutdowns_app. unfold shutdowns at 2. simpl. lia.
Qed.

Lemma threshold_is_inclusive_witness :
  let w := mkWorld (spread defaultConfig [Enabled true]) [] in
  let w' := exec (checkAndTriggerShutdown 1000 true None (Some 85%float) None) w in
  triggered (config w') = true /\ shutdowns (issued w') = 1.
Proof.
  intros w w'.
  apply (threshold_is_inclusive 1000 true None (Some 85%float) None w Gpu 85%float);
    reflexivity.
Defined.

(** ** What the three checks compute *)

Lemma verdict_tripped c cpuTemp gpuTemp mbTemp :
  shouldShutdown (verdict c cpuTemp gpuTemp mbTemp) = true <->
  spec_tripped c cpuTemp gpuTemp mbTemp <> [].
Proof.
  unfold verdict, check_mb, check_gpu, check_cpu, spec_tripped; simpl.
  destruct cpuTemp as [a|], gpuTemp as [b|], mbTemp as [d|]; simpl;
    repeat match goal with |- context [num_ge ?x ?y] => destruct (num_ge x y) end;
    simpl; split; congruence.
Qed.

Lemma verdict_reason c cpuTemp gpuTemp mbTemp :
  reason (verdict c cpuTemp gpuTemp mbTemp) = spec_reason c cpuTemp gpuTemp mbTemp.
Proof.
  unfold verdict, check_mb, check_gpu, check_cpu, spec_reason, spec_tripped; simpl.
  destruct cpuTemp as [a|], gpuTemp as [b|], mbTemp as [d|]; simpl;
    repeat match goal with |- context [num_ge ?x ?y] => destruct (num_ge x y) end;
    reflexivity.
Qed.

Lemma verdict_temp c cpuTemp gpuTemp mbTemp :
  spec_tripped c cpuTemp gpuTemp mbTemp <> [] ->
  Some (triggerTemp (verdict c cpuTemp gpuTemp mbTemp))
  = spec_last_temp c cpuTemp gpuTemp mbTemp.
Proof.
  unfold verdict, check_mb, check_gpu, check_cpu, spec_last_temp, spec_tripped; simpl.
  destruct cpuTemp as [a|], gpuTemp as [b|], mbTemp as [d|]; simpl;
    repeat match goal with |- context [num_ge ?x ?y] => destruct (num_ge x y) end;
    simpl; congruence.
Qed.

(** ** No trip, no effect *)

(** C7: when the policy is disabled, or when no metric trips (an absent
    metric never does), the call returns normally, the configuration and the
    incident are what they were and nothing is handed to the operating
    system. *)
Theorem evaluate_without_trip_is_noop now ok cpuTemp gpuTemp mbTemp w :
  enabled (config w) = false \/
  (forall m, trips (config w) m (readingOf cpuTemp gpuTemp mbTemp m) = false) ->
  exec (checkAndTriggerShutdown now ok cpuTemp gpuTemp mbTemp) w = w /\
  result (checkAndTriggerShutdown now ok cpuTemp gpuTemp mbTemp) w = inr tt /\
  (forall c m, trips c m None = false).
Proof.
  intros H.
  assert (Hidle : enabled (config w) = false \/ triggered (config w) = true \/
                  shouldShutdown (verdict (config w) cpuTemp gpuTemp mbTemp) = false).
  { destruct H as [H|H]; [now left|right; right].
    rewrite verdict_should.
    pose proof (H Cpu) as H1; pose proof (H Gpu) as H2; pose proof (H Mb) as H3.
    simpl in H1, H2, H3. now rewrite H1, H2, H3. }
  split; [now apply check_idle|]. split; [|reflexivity].
  unfold result, checkAndTriggerShutdown, bind, getConfig; cbv beta iota.
  destruct (negb (enabled (config w)) || triggered (config w)) eqn:E; [reflexivity|].
  destruct Hidle as [Hi|[Hi|Hi]]; rewrite Hi in *; simpl in E; try discriminate.
  - now rewrite orb_true_r in E.
  - reflexivity.
Qed.

Lemma evaluate_without_trip_is_noop_witness :
  let w := mkWorld (spread defaultConfig [Enabled true]) [] in
  exec (checkAndTriggerShutdown 1000 true (Some 79.5%float) None (Some 40%float)) w = w.
Proof.
  intros w.
  apply (evaluate_without_trip_is_noop 1000 true (Some 79.5%float) None (Some 40%float) w).
  right. intros []; reflexivity.
Defined.

(** ** Which temperature is recorded *)

(** C1, as amended: when an armed guard sees one or more metrics trip, the
    recorded [triggeredTemp] is the value of the metric that matched last in
    the order cpu, gpu, mb. *)
Theorem triggeredTemp_is_last_match now ok cpuTemp gpuTemp mbTemp w :
  enabled (config w) = true ->
  triggered (config w) = false ->
  spec_tripped (config w) cpuTemp gpuTemp mbTemp <> [] ->
  triggeredTemp (config (exec (checkAndTriggerShutdown now ok cpuTemp gpuTemp mbTemp) w))
  = spec_last_temp (config w) cpuTemp gpuTemp mbTemp.
Proof.
  intros He Ht Hs.
  rewrite check_fires by (try apply verdict_tripped; assumption).
  simpl. now apply verdict_temp.
Qed.

Lemma triggeredTemp_is_last_match_witness :
  let w := mkWorld (spread defaultConfig [Enabled true]) [] in
  triggeredTemp (config (exec
    (checkAndTriggerShutdown 1000 true (Some 90%float) (Some 95%float) None) w))
  = Some 95%float /\
  triggeredTemp (config (exec
    (checkAndTriggerShutdown 1000 true (Some 95%float) (Some 90%float) None) w))
  = Some 90%float.
Proof.
  intros w. split.
  - rewrite (triggeredTemp_is_last_match 1000 true (Some 90%float) (Some 95%float) None w);
      [reflexivity|reflexivity|reflexivity|vm_compute; discriminate].
  - rewrite (triggeredTemp_is_last_match 1000 true (Some 95%float) (Some 90%float) None w);
      [reflexivity|reflexivity|reflexivity|vm_compute; discriminate].
Defined.

(** C1 as stated does not hold: with cpu=90 over 80 and gpu=95 over 85 in one
    tick, the recorded temperature is 95, not the first match 90. *)
Lemma triggeredTemp_is_not_first_match :
  ~ (forall now ok cpuTemp gpuTemp mbTemp w,
       enabled (config w) = true ->
       triggered (config w) = false ->
       1 < length (spec_tripped (config w) cpuTemp gpuTemp mbTemp) ->
       triggeredTemp (config (exec (checkAndTriggerShutdown now ok cpuTemp gpuTemp mbTemp) w))
       = spec_first_temp (config w) cpuTemp gpuTemp mbTemp).
Proof.
  intros H.
  specialize (H 1000%Z true (Some 90%float) (Some 95%float) None
                (mkWorld (spread defaultConfig [Enabled true]) [])).
  vm_compute in H.
  specialize (H eq_refl eq_refl).
  assert (E : Some 95%float = Some 90%float) by (apply H; lia).
  apply (f_equal (fun o => match o with Some x => num_eq x 90 | None => false end)) in E.
  vm_compute in E. discriminate.
Qed.

(** ** The reason string *)

(** C8: when an armed guard sees one or more metrics trip, [triggeredBy] is
    the tags of the tripped metrics, in the order cpu, gpu, mb, joined by
    a plus sign. *)
Theorem triggeredBy_joins_tripped_tags now ok cpuTemp gpuTemp mbTemp w :
  enabled (config w) = true ->
  triggered (config w) = false ->
  spec_tripped (config w) cpuTemp gpuTemp mbTemp <> [] ->
  triggeredBy (config (exec (checkAndTriggerShutdown now ok cpuTemp gpuTemp mbTemp) w))
  = Some (join "+" (map (fun p => tag (fst p))
                        (spec_tripped (config w) cpuTemp gpuTemp mbTemp))).
Proof.
  intros He Ht Hs.
  rewrite check_fires by (try apply verdict_tripped; assumption).
  simpl. f_equal. apply verdict_reason.
Qed.

Lemma triggeredBy_joins_tripped_tags_witness :
  let w := mkWorld (spread defaultConfig [Enabled true]) [] in
  triggeredBy (config (exec
    (checkAndTriggerShutdown 1000 true (Some 90%float) (Some 95%float) None) w))
  = Some "cpu+gpu".
Proof.
  intros w.
  rewrite (triggeredBy_joins_tripped_tags 1000 true (Some 90%float) (Some 95%float) None w);
    [reflexivity|reflexivity|reflexivity|vm_compute; discriminate].
Defined.

(** ** The policy update, case by case *)

Lemma in_range_spec lo hi v x :
  in_range lo hi v = Some x <->
  v = Some (JNum x) /\ num_ge x lo = true /\ num_le x hi = true.
Proof.
  unfold in_range, as_number.
  destruct v as [[| | y | | |]|]; try (split; [discriminate|intros [? _]; discriminate]).
  destruct (num_ge y lo) eqn:E1, (num_le y hi) eqn:E2; simpl; split;
    try discriminate; try (intros [Hv [? ?]]; congruence).
  intros Hx. assert (y = x) by congruence. subst. auto.
Qed.

Lemma POST_applies body w :
  body <> JNull ->
  POST (Some body) w
  = (inr (Json (spec_update (config w) body)),
     mkWorld (spec_update (config w) body) (issued w)).
Proof.
  intros Hb. destruct w as [[en ct gt mt sd tr ta tb tt] l].
  unfold POST, spec_update, try_catch, bind, lift, getConfig, when, prop, field.
  destruct body as [| b | x | s | a | m]; try congruence; try reflexivity.
  cbv beta iota.
  destruct (as_boolean (m !! "enabled")),
           (in_range 30 120 (m !! "cpuThreshold")),
           (in_range 30 120 (m !! "gpuThreshold")),
           (in_range 30 120 (m !! "mbThreshold")),
           (in_range 10 300 (m !! "shutdownDelay")); reflexivity.
Qed.

Lemma POST_rejects request w :
  request = None \/ request = Some JNull ->
  POST request w = (inr InvalidRequestBody, w).
Proof. intros [-> | ->]; reflexivity. Qed.

(** A policy update never reaches the incident or the operating system. *)
Lemma POST_frame request w :
  incident (config (exec (POST request) w)) = incident (config w) /\
  issued (exec (POST request) w) = issued w.
Proof.
  unfold exec.
  destruct request as [body|]; [|now rewrite POST_rejects by auto].
  destruct body; try (now rewrite POST_applies by discriminate).
  now rewrite POST_rejects by auto.
Qed.

(** C4 as stated does not hold: the JSON text [null] parses, reading
    [body.enabled] then throws, and the handler answers 400. *)
Lemma policy_update_rejects_null :
  ~ (forall body w, exists c, result (POST (Some body)) w = inr (Json c)).
Proof.
  intros H. destruct (H JNull initWorld) as [c Hc]. discriminate Hc.
Qed.

(** C4, as amended: a body that parses to anything but [null] is never
    answered with an error.  Each of [enabled], [cpuThreshold],
    [gpuThreshold], [mbThreshold] and [shutdownDelay] is taken when it has
    the right type and lies in its range (30 to 120 for a threshold, 10 to
    300 for the delay, bounds included) and keeps its previous value
    otherwise; nothing else in the body has any effect; the answer is the
    full resulting configuration.  A [null] body gets the 400 answer and
    changes nothing. *)
Theorem policy_update_is_fieldwise body w :
  (body = JNull -> POST (Some body) w = (inr InvalidRequestBody, w)) /\
  (body <> JNull ->
   let w' := exec (POST (Some body)) w in
   result (POST (Some body)) w = inr (Json (config w')) /\
   config w' = spec_update (config w) body /\
   issued w' = issued w) /\
  (forall lo hi v x,
     in_range lo hi v = Some x <->
     v = Some (JNum x) /\ num_ge x lo = true /\ num_le x hi = true).
Proof.
  split; [|split].
  - intros ->. reflexivity.
  - intros Hb. unfold exec, result. rewrite (POST_applies body w Hb). auto.
  - apply in_range_spec.
Qed.

Lemma policy_update_is_fieldwise_witness :
  let body := JObj {[ "cpuThreshold" := JNum 80; "gpuThreshold" := JNum 999 ]} in
  let w := mkWorld (spread defaultConfig [CpuThreshold 70]) [] in
  let w' := exec (POST (Some body)) w in
  result (POST (Some body)) w = inr (Json (config w')) /\
  cpuThreshold (config w') = 80%float /\
  gpuThreshold (config w') = gpuThreshold (config w).
Proof.
  intros body w w'.
  destruct (policy_update_is_fieldwise body w) as (_ & H & _).
  destruct (H ltac:(discriminate)) as (Hr & Hc & _).
  split; [exact Hr|].
  fold w' in Hc. rewrite Hc. split; vm_compute; reflexivity.
Defined.

(** ** Disabling while triggered *)

(** C9: while an incident is active, an update whose [enabled] is [false]
    turns the flag off and leaves the four incident fields as they were; no
    command, in particular no abort, is handed to the operating system.
    When [enabled] is all the body holds, nothing but the flag changes. *)
Theorem disabling_keeps_incident body w :
  triggered (config w) = true ->
  field body "enabled" = Some (JBool false) ->
  let w' := exec (POST (Some body)) w in
  enabled (config w') = false /\
  incident (config w') = incident (config w) /\
  issued w' = issued w /\
  aborts (issued w') = aborts (issued w) /\
  (body = JObj {[ "enabled" := JBool false ]} ->
   config w' = spread (config w) [Enabled false]).
Proof.
  intros Ht Hf w'.
  assert (Hb : body <> JNull) by (intros ->; discriminate Hf).
  subst w'. unfold exec. rewrite (POST_applies body w Hb). simpl.
  rewrite Hf. simpl. repeat split; try reflexivity.
  intros ->. unfold spec_update. simpl.
  rewrite lookup_singleton_eq, !lookup_singleton_ne by done. reflexivity.
Qed.

Lemma disabling_keeps_incident_witness :
  let w := exec (checkAndTriggerShutdown 1000 true (Some 90%float) None None)
             (mkWorld (spread defaultConfig [Enabled true]) []) in
  let w' := exec (POST (Some (JObj {[ "enabled" := JBool false ]}))) w in
  enabled (config w') = false /\
  incident (config w') = (true, Some 1000%Z, Some "cpu", Some 90%float) /\
  issued w' = issued w.
Proof.
  intros w w'.
  destruct (disabling_keeps_incident (JObj {[ "enabled" := JBool false ]}) w)
    as (H1 & H2 & H3 & _); [reflexivity|reflexivity|].
  fold w' in H1, H2, H3. rewrite H2. auto.
Defined.

(** ** The incident invariant *)

Lemma check_keeps_inv now ok cpuTemp gpuTemp mbTemp w :
  incident_inv (config w) ->
  incident_inv (config (exec (checkAndTriggerShutdown now ok cpuTemp gpuTemp mbTemp) w)).
Proof.
  intros Hinv.
  destruct (enabled (config w)) eqn:He;
    [|now rewrite check_idle by auto].
  destruct (triggered (config w)) eqn:Ht;
    [now rewrite check_idle by auto|].
  destruct (shouldShutdown (verdict (config w) cpuTemp gpuTemp mbTemp)) eqn:Hs;
    [|now rewrite check_idle by auto].
  rewrite check_fires by assumption.
  unfold incident_inv; simpl. split; [discriminate|intros [H _]; discriminate].
Qed.

Lemma DELETE_runs ok w :
  DELETE ok w
  = (inr (Json (spread (config w)
                  [Triggered false; TriggeredAt None; TriggeredBy None; TriggeredTemp None])),
     mkWorld (spread (config w)
                [Triggered false; TriggeredAt None; TriggeredBy None; TriggeredTemp None])
             (issued w ++ [(AbortCmd, ok)])).
Proof. destruct ok; reflexivity. Qed.

Lemma step_keeps_inv call w :
  incident_inv (config w) -> incident_inv (config (step w call)).
Proof.
  intros Hinv. destruct call as [now ok a b d | request | ok]; simpl.
  - now apply check_keeps_inv.
  - unfold incident_inv in *.
    destruct (POST_frame request w) as [Hi _].
    unfold incident in Hi. injection Hi as -> -> -> ->. exact Hinv.
  - unfold exec. rewrite DELETE_runs. unfold incident_inv; simpl. tauto.
Qed.

(** C10: the flag [triggered] is off exactly when [triggeredAt],
    [triggeredBy] and [triggeredTemp] are all null.  This holds at start-up,
    every evaluation, policy update and cancel keeps it, so it holds after
    any sequence of them; and a policy update, whatever its body, leaves the
    four incident fields as they were. *)
Theorem incident_invariant :
  incident_inv (config initWorld) /\
  (forall call w, incident_inv (config w) -> incident_inv (config (step w call))) /\
  (forall calls, incident_inv (config (run calls initWorld))) /\
  (forall request w,
     incident (config (exec (POST request) w)) = incident (config w)).
Proof.
  assert (H0 : incident_inv (config initWorld)) by (unfold incident_inv; simpl; tauto).
  split; [exact H0|]. split; [exact step_keeps_inv|]. split.
  - intros calls. generalize initWorld H0. unfold run.
    induction calls as [|call calls IH]; intros w Hw; simpl; [apply Hw|].
    apply IH. now apply step_keeps_inv.
  - intros request w. apply POST_frame.
Qed.

Lemma incident_invariant_witness :
  let body := JObj {[ "triggered" := JBool true; "triggeredAt" := JNum 5;
                      "triggeredBy" := JStr "cpu"; "triggeredTemp" := JNum 99 ]} in
  incident (config (exec (POST (Some body)) initWorld)) = (false, None, None, None) /\
  incident_inv (config (run [Update (Some body); Evaluate 7 false (Some 99%float) None None;
                             Cancel false] initWorld)).
Proof.
  intros body.
  destruct incident_invariant as (_ & _ & Hrun & Hpost).
  split; [rewrite Hpost; reflexivity|apply Hrun].
Defined.

(** ** One shutdown request per incident *)

Lemma run_cons call calls w : run (call :: calls) w = run calls (step w call).
Proof. reflexivity. Qed.

(** While an incident is active, evaluations change nothing at all. *)
Lemma run_evaluate_triggered calls w :
  triggered (config w) = true ->
  forallb is_evaluate calls = true ->
  run calls w = w.
Proof.
  induction calls as [|call calls IH]; intros Ht Hall; [reflexivity|].
  simpl in Hall. apply andb_true_iff in Hall as [Hc Hall].
  destruct call as [now ok a b d | |]; try discriminate.
  rewrite run_cons. simpl. rewrite check_idle by auto. now apply IH.
Qed.

(** A call other than a cancel keeps an active incident and hands nothing
    over. *)
Lemma step_triggered call w :
  triggered (config w) = true ->
  is_cancel call = false ->
  incident (config (step w call)) = incident (config w) /\
  issued (step w call) = issued w.
Proof.
  intros Ht Hc. destruct call as [now ok a b d | request | ok]; simpl.
  - now rewrite check_idle by auto.
  - apply POST_frame.
  - discriminate.
Qed.

(** From an idle guard, a call other than a cancel either leaves it idle and
    hands nothing over, or starts an incident with one shutdown request. *)
Lemma step_idle call w :
  triggered (config w) = false ->
  is_cancel call = false ->
  (triggered (config (step w call)) = false /\ issued (step w call) = issued w) \/
  (triggered (config (step w call)) = true /\
   shutdowns (issued (step w call)) = S (shutdowns (issued w))).
Proof.
  intros Ht Hc. destruct call as [now ok a b d | request | ok]; simpl.
  - destruct (enabled (config w)) eqn:He;
      [|left; now rewrite check_idle by auto].
    destruct (shouldShutdown (verdict (config w) a b d)) eqn:Hs;
      [|left; now rewrite check_idle by auto].
    right. rewrite check_fires by assumption. simpl. split; [reflexivity|].
    rewrite shutdowns_app. unfold shutdowns at 2. simpl. lia.
  - left. destruct (POST_frame request w) as [Hi Hl].
    split; [|exact Hl].
    apply (f_equal (fun i => fst (fst (fst i)))) in Hi. simpl in Hi. congruence.
  - discriminate.
Qed.

Lemma run_triggered calls w :
  triggered (config w) = true ->
  existsb is_cancel calls = false ->
  incident (config (run calls w)) = incident (config w) /\
  issued (run calls w) = issued w.
Proof.
  revert w. induction calls as [|call calls IH]; intros w Ht Hn; [now split|].
  simpl in Hn. apply orb_false_iff in Hn as [Hc Hn].
  rewrite run_cons.
  destruct (step_triggered call w Ht Hc) as [Hi Hl].
  assert (Ht' : triggered (config (step w call)) = true).
  { apply (f_equal (fun i => fst (fst (fst i)))) in Hi. simpl in Hi. congruence. }
  destruct (IH _ Ht' Hn) as [Hi' Hl']. split; congruence.
Qed.

Lemma run_at_most_one calls w :
  existsb is_cancel calls = false ->
  shutdowns (issued (run calls w)) <= S (shutdowns (issued w)).
Proof.
  revert w. induction calls as [|call calls IH]; intros w Hn; [simpl; lia|].
  simpl in Hn. apply orb_false_iff in Hn as [Hc Hn].
  rewrite run_cons.
  destruct (triggered (config w)) eqn:Ht.
  - destruct (step_triggered call w Ht Hc) as [Hi Hl].
    specialize (IH (step w call) Hn). rewrite Hl in IH. exact IH.
  - destruct (step_idle call w Ht Hc) as [[Ht' Hl]|[Ht' Hl]].
    + specialize (IH (step w call) Hn). rewrite Hl in IH. exact IH.
    + destruct (run_triggered calls _ Ht' Hn) as [_ Hl'].
      rewrite Hl', Hl. lia.
Qed.

(** C2: once an incident is active, any number of further evaluations
    leaves the whole state, the stored incident included, as it was and hands
    nothing to the operating system; as long as the incident is not
    cancelled, evaluations and policy updates together cause at most one
    shutdown request; and two evaluations in a row that both see a tripped
    metric give one shutdown request and the incident of the first. *)
Theorem evaluate_is_idempotent :
  (forall calls w,
     triggered (config w) = true ->
     forallb is_evaluate calls = true ->
     run calls w = w) /\
  (forall calls w,
     existsb is_cancel calls = false ->
     shutdowns (issued (run calls w)) <= S (shutdowns (issued w)) /\
     (triggered (config w) = true ->
      incident (config (run calls w)) = incident (config w) /\
      issued (run calls w) = issued w)) /\
  (forall now1 ok1 cpu1 gpu1 mb1 now2 ok2 cpu2 gpu2 mb2 w,
     enabled (config w) = true ->
     triggered (config w) = false ->
     spec_tripped (config w) cpu1 gpu1 mb1 <> [] ->
     spec_tripped (config w) cpu2 gpu2 mb2 <> [] ->
     let w1 := step w (Evaluate now1 ok1 cpu1 gpu1 mb1) in
     let w2 := step w1 (Evaluate now2 ok2 cpu2 gpu2 mb2) in
     w2 = w1 /\
     shutdowns (issued w2) = S (shutdowns (issued w)) /\
     incident (config w2)
     = (true, Some now1, Some (spec_reason (config w) cpu1 gpu1 mb1),
        spec_last_temp (config w) cpu1 gpu1 mb1)).
Proof.
  split; [exact run_evaluate_triggered|]. split.
  - intros calls w Hn. split; [now apply run_at_most_one|].
    intros Ht. now apply run_triggered.
  - intros now1 ok1 cpu1 gpu1 mb1 now2 ok2 cpu2 gpu2 mb2 w He Ht H1 _ w1 w2.
    assert (Hs : shouldShutdown (verdict (config w) cpu1 gpu1 mb1) = true)
      by now apply verdict_tripped.
    assert (E1 : w1 = _) by apply (check_fires now1 ok1 cpu1 gpu1 mb1 w He Ht Hs).
    assert (E2 : w2 = w1).
    { subst w2. simpl. apply check_idle. right; left. rewrite E1. reflexivity. }
    rewrite E2, E1. simpl. split; [reflexivity|]. split.
    + rewrite shutdowns_app. unfold shutdowns at 2. simpl. lia.
    + unfold incident; simpl. now rewrite verdict_reason, verdict_temp.
Qed.

Lemma evaluate_is_idempotent_witness :
  let w := mkWorld (spread defaultConfig [Enabled true]) [] in
  let w2 := run [Evaluate 1000 true (Some 90%float) None None;
                 Evaluate 4000 true (Some 97%float) (Some 99%float) None] w in
  shutdowns (issued w2) = 1 /\
  incident (config w2) = (true, Some 1000%Z, Some "cpu", Some 90%float).
Proof.
  intros w w2.
  destruct evaluate_is_idempotent as (_ & _ & H).
  destruct (H 1000%Z true (Some 90%float) None None
              4000%Z true (Some 97%float) (Some 99%float) None w)
    as (_ & Hn & Hi);
    [reflexivity|reflexivity|vm_compute; discriminate|vm_compute; discriminate|].
  split; [exact Hn|exact Hi].
Defined.

(** ** A failing shutdown command *)

(** C3: when an armed guard sees a metric trip and the shutdown command
    fails, the call still returns normally with the incident recorded exactly
    as if the command had succeeded; the command was handed over once, and
    later evaluations, which find the incident active, never hand it over
    again. *)
Theorem failed_shutdown_still_triggers now cpuTemp gpuTemp mbTemp w :
  enabled (config w) = true ->
  triggered (config w) = false ->
  spec_tripped (config w) cpuTemp gpuTemp mbTemp <> [] ->
  let w' := exec (checkAndTriggerShutdown now false cpuTemp gpuTemp mbTemp) w in
  let v := verdict (config w) cpuTemp gpuTemp mbTemp in
  result (checkAndTriggerShutdown now false cpuTemp gpuTemp mbTemp) w = inr tt /\
  config w' = config (exec (checkAndTriggerShutdown now true cpuTemp gpuTemp mbTemp) w) /\
  incident (config w')
  = (true, Some now, Some (spec_reason (config w) cpuTemp gpuTemp mbTemp),
     spec_last_temp (config w) cpuTemp gpuTemp mbTemp) /\
  issued w'
  = (issued w ++ [(ShutdownCmd (shutdownDelay (config w)) (shutdownMessage (config w) v),
                   false)])%list /\
  (forall calls, forallb is_evaluate calls = true -> run calls w' = w').
Proof.
  intros He Ht Hs w' v.
  assert (Hv : shouldShutdown v = true) by now apply verdict_tripped.
  assert (E : w' = _) by apply (check_fires now false cpuTemp gpuTemp mbTemp w He Ht Hv).
  split.
  { unfold result, checkAndTriggerShutdown, bind, getConfig; cbv beta iota.
    replace (negb (enabled (config w)) || triggered (config w)) with false
      by (rewrite He, Ht; reflexivity).
    cbv zeta. fold v. rewrite Hv. reflexivity. }
  rewrite (check_fires now true cpuTemp gpuTemp mbTemp w He Ht Hv), E. simpl.
  split; [reflexivity|]. split.
  { unfold incident; simpl. now rewrite verdict_reason, verdict_temp. }
  split; [reflexivity|].
  intros calls Hc. now apply run_evaluate_triggered.
Qed.

Lemma failed_shutdown_still_triggers_witness :
  let w := mkWorld (spread defaultConfig [Enabled true]) [] in
  let w' := exec (checkAndTriggerShutdown 1000 false None None (Some 75%float)) w in
  incident (config w') = (true, Some 1000%Z, Some "mb", Some 75%float) /\
  shutdowns (issued (run [Evaluate 4000 true None None (Some 80%float)] w')) = 1.
Proof.
  intros w w'.
  destruct (failed_shutdown_still_triggers 1000 None None (Some 75%float) w)
    as (_ & _ & Hi & Hl & Hrun);
    [reflexivity|reflexivity|vm_compute; discriminate|].
  split; [exact Hi|].
  rewrite Hrun by reflexivity. fold w'. fold w' in Hl. rewrite Hl. reflexivity.
Defined.

(** ** Cancelling *)

Lemma spec_tripped_thresholds c c' cpuTemp gpuTemp mbTemp :
  (forall m, thresholdOf c m = thresholdOf c' m) ->
  spec_tripped c cpuTemp gpuTemp mbTemp = spec_tripped c' cpuTemp gpuTemp mbTemp.
Proof.
  intros H.
  pose proof (H Cpu) as H1; pose proof (H Gpu) as H2; pose proof (H Mb) as H3.
  unfold spec_tripped, evaluation_order. simpl in *.
  now rewrite H1, H2, H3.
Qed.

(** C5: a cancel hands the abort command to the operating system and,
    whether that command succeeds or fails, answers without an error with the
    resulting configuration, in which the incident is cleared and the policy
    is what it was.  If the policy is enabled, the next evaluation that sees
    a tripped metric starts a new incident, stamped with its own time, and
    hands over a new shutdown request. *)
Theorem cancel_clears_and_rearms ok w :
  let w' := exec (DELETE ok) w in
  issued w' = (issued w ++ [(AbortCmd, ok)])%list /\
  result (DELETE ok) w = inr (Json (config w')) /\
  incident (config w') = (false, None, None, None) /\
  policy (config w') = policy (config w) /\
  (forall now ok' cpuTemp gpuTemp mbTemp,
     enabled (config w) = true ->
     spec_tripped (config w) cpuTemp gpuTemp mbTemp <> [] ->
     let w'' := exec (checkAndTriggerShutdown now ok' cpuTemp gpuTemp mbTemp) w' in
     incident (config w'')
     = (true, Some now, Some (spec_reason (config w) cpuTemp gpuTemp mbTemp),
        spec_last_temp (config w) cpuTemp gpuTemp mbTemp) /\
     shutdowns (issued w'') = S (shutdowns (issued w'))).
Proof.
  intros w'. subst w'. unfold exec, result. rewrite DELETE_runs. simpl.
  repeat (split; [reflexivity|]).
  intros now ok' cpuTemp gpuTemp mbTemp He Hs.
  match goal with |- context [checkAndTriggerShutdown _ _ _ _ _ ?x] => set (w' := x) end.
  assert (Ht : forall m, thresholdOf (config w') m = thresholdOf (config w) m)
    by (intros []; reflexivity).
  assert (Hs' : spec_tripped (config w') cpuTemp gpuTemp mbTemp <> [])
    by now rewrite (spec_tripped_thresholds _ _ _ _ _ Ht).
  pose proof (check_fires now ok' cpuTemp gpuTemp mbTemp w' He eq_refl
                (proj2 (verdict_tripped _ _ _ _) Hs')) as E.
  unfold exec in E. rewrite E. simpl. split.
  - unfold incident; simpl. rewrite verdict_reason, verdict_temp by exact Hs'.
    unfold spec_reason, spec_last_temp.
    now rewrite (spec_tripped_thresholds _ _ _ _ _ Ht).
  - rewrite !shutdowns_app. unfold shutdowns at 3. simpl. lia.
Qed.

Lemma cancel_clears_and_rearms_witness :
  let w0 := mkWorld (spread defaultConfig [Enabled true]) [] in
  let w1 := exec (checkAndTriggerShutdown 1000 true (Some 90%float) None None) w0 in
  let w2 := exec (DELETE false) w1 in
  let w3 := exec (checkAndTriggerShutdown 9000 true (Some 90%float) None None) w2 in
  incident (config w2) = (false, None, None, None) /\
  incident (config w3) = (true, Some 9000%Z, Some "cpu", Some 90%float) /\
  shutdowns (issued w3) = 2.
Proof.
  intros w0 w1 w2 w3.
  destruct (cancel_clears_and_rearms false w1) as (_ & _ & Hi & _ & Hre).
  destruct (Hre 9000%Z true (Some 90%float) None None) as [Hi' Hn];
    [reflexivity|vm_compute; discriminate|].
  split; [exact Hi|]. split; [exact Hi'|]. exact Hn.
Defined.

(** * Further properties of the route *)

(** ** Invariants of the reachable states *)

Lemma run_invariant (P : World -> Prop) :
  (forall call w, P w -> P (step w call)) ->
  forall calls w, P w -> P (run calls w).
Proof.
  intros Hstep. unfold run.
  induction calls as [|call calls IH]; intros w Hw; simpl; [exact Hw|].
  apply IH, Hstep, Hw.
Qed.

(** The three outcomes of an evaluation, for case analysis. *)
Lemma check_cases now ok cpuTemp gpuTemp mbTemp w :
  exec (checkAndTriggerShutdown now ok cpuTemp gpuTemp mbTemp) w = w \/
  (enabled (config w) = true /\ triggered (config w) = false /\
   exec (checkAndTriggerShutdown now ok cpuTemp gpuTemp mbTemp) w
   = let v := verdict (config w) cpuTemp gpuTemp mbTemp in
     mkWorld (spread (config w)
                [Triggered true; TriggeredAt (Some now);
                 TriggeredBy (Some (reason v)); TriggeredTemp (Some (triggerTemp v))])
             (issued w ++ [(ShutdownCmd (shutdownDelay (config w))
                              (shutdownMessage (config w) v), ok)])).
Proof.
  destruct (enabled (config w)) eqn:He; [|left; now apply check_idle; auto].
  destruct (triggered (config w)) eqn:Ht; [left; now apply check_idle; auto|].
  destruct (shouldShutdown (verdict (config w) cpuTemp gpuTemp mbTemp)) eqn:Hs;
    [|left; now apply check_idle; auto].
  right. split; [reflexivity|]. split; [reflexivity|]. now apply check_fires.
Qed.

Lemma in_range_within lo hi v x :
  in_range lo hi v = Some x -> within lo hi x = true.
Proof.
  intros H. apply in_range_spec in H as (_ & H1 & H2).
  unfold within. now rewrite H1, H2.
Qed.

Lemma default_in_range lo hi v old :
  within lo hi old = true ->
  within lo hi (default old (in_range lo hi v)) = true.
Proof.
  intros Hold. destruct (in_range lo hi v) as [x|] eqn:E; simpl; [|exact Hold].
  now apply in_range_within with v.
Qed.

Lemma spec_update_keeps_bounds c body :
  policy_in_bounds c = true -> policy_in_bounds (spec_update c body) = true.
Proof.
  unfold policy_in_bounds, spec_update. cbn [cpuThreshold gpuThreshold mbThreshold shutdownDelay].
  intros Hb.
  apply andb_true_iff in Hb as [Hb H4].
  apply andb_true_iff in Hb as [Hb H3].
  apply andb_true_iff in Hb as [H1 H2].
  now rewrite !default_in_range by assumption.
Qed.

Lemma step_keeps_bounds call w :
  policy_in_bounds (config w) = true ->
  policy_in_bounds (config (step w call)) = true.
Proof.
  intros Hb. destruct call as [now ok a b d | request | ok]; simpl.
  - destruct (check_cases now ok a b d w) as [-> | (_ & _ & ->)]; exact Hb.
  - unfold exec.
    destruct request as [body|]; [|now rewrite POST_rejects by auto].
    destruct body; try (now rewrite POST_rejects by auto);
      rewrite POST_applies by discriminate; now apply spec_update_keeps_bounds.
  - unfold exec. rewrite DELETE_runs. exact Hb.
Qed.

(** X1: whatever evaluations, updates and cancels have been served since
    start-up, each threshold lies between 30 and 120 and the delay between
    10 and 300, bounds included; every single call keeps these bounds. *)
Theorem policy_stays_in_bounds :
  (forall call w,
     policy_in_bounds (config w) = true ->
     policy_in_bounds (config (step w call)) = true) /\
  (forall calls, policy_in_bounds (config (run calls initWorld)) = true).
Proof.
  split; [exact step_keeps_bounds|].
  intros calls.
  apply (run_invariant (fun w => policy_in_bounds (config w) = true));
    [exact step_keeps_bounds|reflexivity].
Qed.

Lemma policy_stays_in_bounds_witness :
  let body := JObj {[ "cpuThreshold" := JNum 29.5; "shutdownDelay" := JNum 300;
                      "mbThreshold" := JStr "90" ]} in
  policy_in_bounds (config (step initWorld (Update (Some body)))) = true.
Proof.
  intros body. apply policy_stays_in_bounds. reflexivity.
Defined.

Lemma shutdown_delays_app l1 l2 :
  shutdown_delays (l1 ++ l2) = (shutdown_delays l1 ++ shutdown_delays l2)%list.
Proof. apply omap_app. Qed.

(** X2: every shutdown command the guard has handed to the operating
    system since start-up asks for a delay between 10 and 300 seconds. *)
Theorem issued_delays_in_bounds calls :
  Forall (fun d => within 10 300 d = true)
         (shutdown_delays (issued (run calls initWorld))).
Proof.
  cut (policy_in_bounds (config (run calls initWorld)) = true /\
       Forall (fun d => within 10 300 d = true)
              (shutdown_delays (issued (run calls initWorld)))); [tauto|].
  apply (run_invariant (fun w =>
           policy_in_bounds (config w) = true /\
           Forall (fun d => within 10 300 d = true) (shutdown_delays (issued w))));
    [|split; [reflexivity|constructor]].
  intros call w [Hb Hd]. split; [now apply step_keeps_bounds|].
  destruct call as [now ok a b d | request | ok]; simpl.
  - destruct (check_cases now ok a b d w) as [-> | (_ & _ & ->)]; [exact Hd|].
    simpl. rewrite shutdown_delays_app. apply Forall_app. split; [exact Hd|].
    simpl. constructor; [|constructor].
    unfold policy_in_bounds in Hb. apply andb_true_iff in Hb as [_ Hb]. exact Hb.
  - destruct (POST_frame request w) as [_ ->]. exact Hd.
  - unfold exec. rewrite DELETE_runs. simpl.
    rewrite shutdown_delays_app. simpl. now rewrite app_nil_r.
Qed.




(** ** Updates and reads *)

Lemma default_default {A} (old : A) (o : option A) :
  default (default old o) o = default old o.
Proof. now destruct o. Qed.

Lemma spec_update_idem c body :
  spec_update (spec_update c body) body = spec_update c body.
Proof.
  unfold spec_update.
  cbn [enabled cpuThreshold gpuThreshold mbThreshold shutdownDelay
       triggered triggeredAt triggeredBy triggeredTemp].
  now rewrite !default_default.
Qed.

(** X5: serving the same update twice in a row leaves the state that
    serving it once leaves, and gets the same answer both times; this holds
    for a body that cannot be parsed or is [null] as well. *)
Theorem update_is_idempotent request w :
  let w1 := exec (POST request) w in
  exec (POST request) w1 = w1 /\
  result (POST request) w1 = result (POST request) w.
Proof.
  intros w1. subst w1. unfold exec, result.
  destruct request as [body|]; [|now rewrite !POST_rejects by auto].
  destruct body; try (now rewrite !POST_rejects by auto);
    rewrite !POST_applies by discriminate; simpl;
    now rewrite spec_update_idem.
Qed.

(** X6: a read changes nothing, and a read that follows an accepted update
    or a cancel is answered with exactly what that call answered. *)
Theorem read_returns_last_answer w :
  exec GET w = w /\
  result GET w = inr (Json (config w)) /\
  (forall body, body <> JNull ->
     result GET (exec (POST (Some body)) w) = result (POST (Some body)) w) /\
  (forall ok, result GET (exec (DELETE ok) w) = result (DELETE ok) w).
Proof.
  split; [reflexivity|]. split; [reflexivity|]. split.
  - intros body Hb. unfold exec, result. now rewrite POST_applies.
  - intros ok. unfold exec, result. now rewrite DELETE_runs.
Qed.

Lemma read_returns_last_answer_witness :
  result GET (exec (POST (Some (JObj {[ "enabled" := JBool true ]}))) initWorld)
  = inr (Json (spread defaultConfig [Enabled true])).
Proof.
  destruct (read_returns_last_answer initWorld) as (_ & _ & H & _).
  rewrite H by discriminate. reflexivity.
Defined.

(** ** The shutdown command *)

Lemma message_of_verdict c cpuTemp gpuTemp mbTemp :
  msgThreshold (shutdownMessage c (verdict c cpuTemp gpuTemp mbTemp))
  = if trips c Cpu cpuTemp then cpuThreshold c else gpuThreshold c.
Proof.
  unfold shutdownMessage, verdict, check_mb, check_gpu, check_cpu, trips; simpl.
  destruct cpuTemp as [a|], gpuTemp as [b|], mbTemp as [d|]; simpl;
    repeat match goal with |- context [num_ge ?x ?y] => destruct (num_ge x y) end;
    reflexivity.
Qed.

(** X7: the command an armed guard hands over on a trip carries the
    configured delay and a message made of the upper-cased reason, the
    recorded temperature and one threshold: the cpu threshold when the cpu
    tripped, and the gpu threshold in every other case, also when the
    motherboard alone tripped. *)
Theorem shutdown_command_contents now ok cpuTemp gpuTemp mbTemp w :
  enabled (config w) = true ->
  triggered (config w) = false ->
  spec_tripped (config w) cpuTemp gpuTemp mbTemp <> [] ->
  exists t,
    spec_last_temp (config w) cpuTemp gpuTemp mbTemp = Some t /\
    issued (exec (checkAndTriggerShutdown now ok cpuTemp gpuTemp mbTemp) w)
    = (issued w ++
       [(ShutdownCmd (shutdownDelay (config w))
           {| msgReason := toUpperCase (spec_reason (config w) cpuTemp gpuTemp mbTemp);
              msgTemp := t;
              msgThreshold := if trips (config w) Cpu cpuTemp
                              then cpuThreshold (config w)
                              else gpuThreshold (config w);
              msgDelay := shutdownDelay (config w) |}, ok)])%list.
Proof.
  intros He Ht Hs.
  exists (triggerTemp (verdict (config w) cpuTemp gpuTemp mbTemp)).
  split; [symmetry; now apply verdict_temp|].
  rewrite check_fires by (try apply verdict_tripped; assumption).
  simpl. rewrite <- (message_of_verdict (config w) cpuTemp gpuTemp mbTemp).
  rewrite <- verdict_reason. reflexivity.
Qed.

Lemma shutdown_command_contents_witness :
  let w := mkWorld (spread defaultConfig [Enabled true]) [] in
  exists t,
    issued (exec (checkAndTriggerShutdown 1000 true None None (Some 77%float)) w)
    = [(ShutdownCmd 60 {| msgReason := "MB"; msgTemp := t;
                          msgThreshold := 85; msgDelay := 60 |}, true)].
Proof.
  intros w.
  destruct (shutdown_command_contents 1000 true None None (Some 77%float) w)
    as (t & _ & H); [reflexivity|reflexivity|vm_compute; discriminate|].
  exists t. exact H.
Defined.

(** ** Readings that are not a number *)

Lemma SFcompare_nan_r x : SFcompare x S754_nan = None.
Proof. now destruct x. Qed.

Lemma nan_not_le x y : PrimFloat.is_nan x = true -> PrimFloat.leb y x = false.
Proof.
  intros Hn. rewrite FloatAxioms.leb_spec. unfold SFleb.
  assert (E : Prim2SF x = S754_nan) by (unfold Prim2SF; now rewrite Hn).
  now rewrite E, SFcompare_nan_r.
Qed.

(** X8: a reading that is NaN never trips its threshold, so a poll in which
    every metric is absent or NaN changes nothing and hands nothing over. *)
Theorem nan_reading_never_trips now ok cpuTemp gpuTemp mbTemp w :
  (forall m t, readingOf cpuTemp gpuTemp mbTemp m = Some t ->
               PrimFloat.is_nan t = true) ->
  (forall m, trips (config w) m (readingOf cpuTemp gpuTemp mbTemp m) = false) /\
  exec (checkAndTriggerShutdown now ok cpuTemp gpuTemp mbTemp) w = w.
Proof.
  intros Hn.
  assert (Hm : forall m, trips (config w) m (readingOf cpuTemp gpuTemp mbTemp m) = false).
  { intros m. specialize (Hn m).
    destruct (readingOf cpuTemp gpuTemp mbTemp m) as [t|]; [|reflexivity].
    simpl. unfold num_ge. apply nan_not_le. now apply Hn. }
  split; [exact Hm|].
  apply check_idle. right; right. rewrite verdict_should.
  pose proof (Hm Cpu) as H1; pose proof (Hm Gpu) as H2; pose proof (Hm Mb) as H3.
  simpl in H1, H2, H3. now rewrite H1, H2, H3.
Qed.

Lemma nan_reading_never_trips_witness :
  let w := mkWorld (spread defaultConfig [Enabled true]) [] in
  exec (checkAndTriggerShutdown 1000 true (Some PrimFloat.nan) None (Some PrimFloat.nan)) w
  = w.
Proof.
  intros w.
  apply (nan_reading_never_trips 1000 true (Some PrimFloat.nan) None (Some PrimFloat.nan) w).
  intros [] t E; simpl in E; try discriminate;
    apply (f_equal (fun o => match o with
                             | Some x => PrimFloat.is_nan x
                             | None => true
                             end)) in E;
    cbv beta iota in E; rewrite <- E; reflexivity.
Defined.

(** ** Which call touches what *)

(** X9: only an update can change the policy, only an evaluation can add a
    shutdown request, and a cancel adds exactly one abort while nothing else
    adds any. *)
Theorem calls_touch_only_their_part call w :
  (is_update call = false -> policy (config (step w call)) = policy (config w)) /\
  (is_evaluate call = false ->
   shutdowns (issued (step w call)) = shutdowns (issued w)) /\
  aborts (issued (step w call))
  = aborts (issued w) + (if is_cancel call then 1 else 0).
Proof.
  destruct call as [now ok a b d | request | ok]; simpl.
  - destruct (check_cases now ok a b d w) as [-> | (_ & _ & ->)].
    + split; [reflexivity|]. split; [discriminate|lia].
    + split; [reflexivity|]. split; [discriminate|].
      simpl. rewrite aborts_app. unfold aborts at 2. simpl. lia.
  - destruct (POST_frame request w) as [_ ->].
    split; [discriminate|]. split; [reflexivity|lia].
  - unfold exec. rewrite DELETE_runs. simpl.
    split; [reflexivity|]. rewrite shutdowns_app, aborts_app.
    unfold shutdowns at 2, aborts at 2. simpl. split; [intros _|]; lia.
Qed.

Lemma calls_touch_only_their_part_witness :
  let w := mkWorld (spread defaultConfig [Enabled true]) [] in
  policy (config (step w (Evaluate 1000 false (Some 99%float) None None)))
  = policy (config w).
Proof.
  intros w.
  apply (calls_touch_only_their_part (Evaluate 1000 false (Some 99%float) None None) w).
  reflexivity.
Defined.

(** * The system route *)

(** ** The temperature cache *)

Lemma readTempsViaDll_fresh now run c :
  (now - SystemRoute.ts c < SystemRoute.CACHE_TTL_MS)%Z ->
  SystemRoute.readTempsViaDll now run c = (SystemRoute.cached c, c, 0).
Proof.
  intros H. unfold SystemRoute.readTempsViaDll.
  now rewrite (proj2 (Z.ltb_lt _ _) H).
Qed.

Lemma readTempsViaDll_expired now run c :
  (SystemRoute.CACHE_TTL_MS <= now - SystemRoute.ts c)%Z ->
  SystemRoute.readTempsViaDll now run c
  = match SystemRoute.ps64 run with
    | Some out => SystemRoute.afterStdout now out c 1
    | None =>
        match SystemRoute.psFallback run with
        | Some out => SystemRoute.afterStdout now out c 2
        | None => (SystemRoute.noTemps, c, 2)
        end
    end.
Proof.
  intros H. unfold SystemRoute.readTempsViaDll.
  now rewrite (proj2 (Z.ltb_ge _ _) H).
Qed.

(** X10: when the cache has expired and the script prints its object, the
    three values are returned and stored; from then on every read whose
    clock is less than 2500 ms past that moment returns the same three
    values, starts no process and leaves the cache alone, whatever the
    script would print by then. *)
Theorem cache_serves_last_reading now run c cpu_temp gpu_temp mb_temp :
  (SystemRoute.CACHE_TTL_MS <= now - SystemRoute.ts c)%Z ->
  SystemRoute.finalStdout run = Some (SystemRoute.Printed cpu_temp gpu_temp mb_temp) ->
  let temps := SystemRoute.mkTemps cpu_temp gpu_temp mb_temp in
  let c' := snd (fst (SystemRoute.readTempsViaDll now run c)) in
  fst (fst (SystemRoute.readTempsViaDll now run c)) = temps /\
  c' = SystemRoute.mkCache temps now /\
  (forall now' run',
     (now' - now < SystemRoute.CACHE_TTL_MS)%Z ->
     SystemRoute.readTempsViaDll now' run' c' = (temps, c', 0)).
Proof.
  intros Hexp Hout temps c'.
  assert (E : exists n, SystemRoute.readTempsViaDll now run c
                        = (temps, SystemRoute.mkCache temps now, n)).
  { rewrite readTempsViaDll_expired by exact Hexp.
    unfold SystemRoute.finalStdout in Hout.
    destruct (SystemRoute.ps64 run) as [out|].
    - injection Hout as ->. now exists 1.
    - rewrite Hout. now exists 2. }
  destruct E as [n E]. subst c'. rewrite E. simpl.
  split; [reflexivity|]. split; [reflexivity|].
  intros now' run' H. now rewrite readTempsViaDll_fresh.
Qed.

Lemma cache_serves_last_reading_witness :
  let run := SystemRoute.mkRun None
               (Some (SystemRoute.Printed (Some 61.5%float) None (Some 40%float))) in
  let c' := snd (fst (SystemRoute.readTempsViaDll 100000 run SystemRoute.initCache)) in
  SystemRoute.readTempsViaDll 102499 (SystemRoute.mkRun None None) c'
  = (SystemRoute.mkTemps (Some 61.5%float) None (Some 40%float), c', 0).
Proof.
  intros run c'.
  apply (cache_serves_last_reading 100000 run SystemRoute.initCache
           (Some 61.5%float) None (Some 40%float)); [vm_compute; discriminate|reflexivity|].
  reflexivity.
Defined.

(** X11: when the cache has expired and the script gives nothing usable
    (both processes reject, or the output is blank or does not parse), the
    read returns three nulls, not the values cached earlier, and leaves the
    cache as it was; so every read at a later clock runs the script
    again. *)
Theorem failed_read_is_not_cached now run c :
  (SystemRoute.CACHE_TTL_MS <= now - SystemRoute.ts c)%Z ->
  SystemRoute.finalStdout run = None \/
  SystemRoute.finalStdout run = Some SystemRoute.Blank \/
  SystemRoute.finalStdout run = Some SystemRoute.Garbled ->
  fst (fst (SystemRoute.readTempsViaDll now run c)) = SystemRoute.noTemps /\
  snd (fst (SystemRoute.readTempsViaDll now run c)) = c /\
  (forall now' run',
     (now <= now')%Z ->
     1 <= snd (SystemRoute.readTempsViaDll now' run' c)).
Proof.
  intros Hexp Hout.
  rewrite readTempsViaDll_expired by exact Hexp.
  unfold SystemRoute.finalStdout in Hout.
  assert (E : exists n,
             match SystemRoute.ps64 run with
             | Some out => SystemRoute.afterStdout now out c 1
             | None =>
                 match SystemRoute.psFallback run with
                 | Some out => SystemRoute.afterStdout now out c 2
                 | None => (SystemRoute.noTemps, c, 2)
                 end
             end = (SystemRoute.noTemps, c, n)).
  { destruct (SystemRoute.ps64 run) as [out|].
    - destruct Hout as [H|[H|H]]; try discriminate; injection H as ->; now exists 1.
    - destruct Hout as [-> | [-> | ->]]; now exists 2. }
  destruct E as [n ->]. simpl. split; [reflexivity|]. split; [reflexivity|].
  intros now' run' Hle.
  rewrite readTempsViaDll_expired by lia.
  destruct (SystemRoute.ps64 run') as [[]|]; simpl; try lia.
  destruct (SystemRoute.psFallback run') as [[]|]; simpl; lia.
Qed.

Lemma failed_read_is_not_cached_witness :
  let c := SystemRoute.mkCache
             (SystemRoute.mkTemps (Some 95%float) None None) 100000 in
  fst (fst (SystemRoute.readTempsViaDll 102500
              (SystemRoute.mkRun (Some SystemRoute.Garbled) None) c))
  = SystemRoute.noTemps.
Proof.
  intros c.
  apply (failed_read_is_not_cached 102500
           (SystemRoute.mkRun (Some SystemRoute.Garbled) None) c);
    [vm_compute; discriminate|auto].
Defined.

(** ** Which reading reaches the guard *)

Ltac split_truthy :=
  repeat match goal with
         | |- context [SystemRoute.num_truthy ?x] =>
             destruct (SystemRoute.num_truthy x) eqn:?; simpl
         end.

(** X12: the cpu reading given to the guard is the first usable one (not
    null, zero or NaN) of: the sensor library's main value, its first core,
    the script's value, and the WMI value; the WMI value is only looked at
    when the script gave no usable gpu value either.  With none usable the
    reading is null. *)
Theorem cpu_reading_priority si dll wmi :
  SystemRoute.resolvedCpuTemp si dll wmi
  = SystemRoute.first_present
      [SystemRoute.main si; head (SystemRoute.cores si); SystemRoute.cpu dll;
       if SystemRoute.present (SystemRoute.gpu dll) then None else fst wmi].
Proof.
  destruct si as [m cs gs], dll as [dc dg dm], wmi as [wc wg].
  unfold SystemRoute.resolvedCpuTemp, SystemRoute.dllTemps, SystemRoute.asksWmi,
    SystemRoute.nativeCpuTemp, SystemRoute.or_null, SystemRoute.or_else,
    SystemRoute.first_present, SystemRoute.present; simpl.
  destruct (forallb SystemRoute.is_null (SystemRoute.resolvedGpuTemps
              (SystemRoute.mkSi m cs gs)));
    destruct m as [x|], (head cs) as [y|], dc as [z|], dg as [u|], wc as [v|];
    simpl; split_truthy; try reflexivity; congruence.
Qed.

(** X13: the gpu reading given to the guard comes from the first graphics
    controller only: it is the first usable one of that controller's own
    value, the script's value and, when WMI was asked, the WMI value.  When
    the sensor library lists no controller the reading is null, whatever the
    script and WMI report. *)
Theorem gpu_reading_priority si dll wmi :
  SystemRoute.finalGpuTemp si dll wmi
  = match SystemRoute.controllers si with
    | [] => None
    | g :: _ =>
        SystemRoute.first_present
          [g; SystemRoute.gpu dll;
           if SystemRoute.asksWmi si dll then snd wmi else None]
    end.
Proof.
  unfold SystemRoute.finalGpuTemp, SystemRoute.graphicsTemperatures,
    SystemRoute.dllTemps.
  destruct (SystemRoute.controllers si) as [|g gs] eqn:Eg; [reflexivity|].
  simpl.
  destruct (SystemRoute.asksWmi si dll) eqn:Ea; simpl.
  - unfold SystemRoute.asksWmi in Ea.
    apply andb_true_iff in Ea as [Ea _]. apply andb_true_iff in Ea as [_ Ea].
    apply negb_true_iff in Ea.
    destruct wmi as [wc wg]; simpl.
    unfold SystemRoute.or_null, SystemRoute.or_else, SystemRoute.first_present; simpl.
    destruct (SystemRoute.present g) eqn:E1, (SystemRoute.present wg) eqn:E2;
      simpl; rewrite ?E1, ?E2, ?Ea; simpl; rewrite ?E1, ?E2, ?Ea; reflexivity.
  - unfold SystemRoute.or_null, SystemRoute.or_else, SystemRoute.first_present; simpl.
    destruct (SystemRoute.present g) eqn:E1,
             (SystemRoute.present (SystemRoute.gpu dll)) eqn:E2;
      simpl; rewrite ?E1, ?E2; simpl; rewrite ?E1, ?E2; reflexivity.
Qed.





(** ** Dropped readings and the thresholds *)

Lemma zero_below_30 th x :
  PrimFloat.leb 30 th = true ->
  PrimFloat.is_zero x = true ->
  PrimFloat.leb th x = false.
Proof.
  unfold PrimFloat.is_zero.
  rewrite !FloatAxioms.leb_spec, FloatAxioms.eqb_spec.
  set (a := Prim2SF 30). vm_compute in a. subst a.
  set (z := Prim2SF PrimFloat.zero). vm_compute in z. subst z.
  unfold SFleb, SFeqb.
  destruct (Prim2SF th) as [s|s| |s m e], (Prim2SF x) as [s'|s'| |s' m' e'];
    simpl; try discriminate; try (destruct s; simpl; congruence);
    try (destruct s'; simpl; congruence).
Qed.

Lemma falsy_not_ge x th :
  PrimFloat.leb 30 th = true ->
  SystemRoute.num_truthy x = false ->
  num_ge x th = false.
Proof.
  intros Hth Hx. unfold SystemRoute.num_truthy in Hx.
  apply negb_false_iff, orb_true_iff in Hx as [Hx|Hx].
  - now apply nan_not_le.
  - now apply zero_below_30.
Qed.

Lemma bounds_thresholds c m :
  policy_in_bounds c = true -> PrimFloat.leb 30 (thresholdOf c m) = true.
Proof.
  unfold policy_in_bounds, within, num_ge. intros Hb.
  apply andb_true_iff in Hb as [Hb _].
  apply andb_true_iff in Hb as [Hb H3].
  apply andb_true_iff in Hb as [H1 H2].
  apply andb_true_iff in H1 as [H1 _].
  apply andb_true_iff in H2 as [H2 _].
  apply andb_true_iff in H3 as [H3 _].
  now destruct m.
Qed.

Lemma trips_or_null c m a :
  policy_in_bounds c = true ->
  trips c m (SystemRoute.or_null a) = trips c m a.
Proof.
  intros Hb. unfold SystemRoute.or_null, SystemRoute.present.
  destruct a as [x|]; [|reflexivity].
  destruct (SystemRoute.num_truthy x) eqn:E; [reflexivity|].
  simpl. symmetry. apply falsy_not_ge; [now apply bounds_thresholds|exact E].
Qed.

Lemma verdict_or_null c a b d :
  policy_in_bounds c = true ->
  verdict c (SystemRoute.or_null a) (SystemRoute.or_null b) (SystemRoute.or_null d)
  = verdict c a b d.
Proof.
  intros Hb.
  pose proof (trips_or_null c Cpu a Hb) as Ha.
  pose proof (trips_or_null c Gpu b Hb) as Hg.
  pose proof (trips_or_null c Mb d Hb) as Hm.
  unfold SystemRoute.or_null in *.
  destruct (SystemRoute.present a), (SystemRoute.present b), (SystemRoute.present d);
    try reflexivity;
    unfold verdict, check_mb, check_gpu, check_cpu, trips in *; simpl in *;
    destruct a as [x|], b as [y|], d as [z|];
    rewrite <- ?Ha, <- ?Hg, <- ?Hm; reflexivity.
Qed.

(** X15: while the thresholds are within their bounds, a reading of zero or
    NaN cannot trip, so the guard behaves the same whether such a reading is
    handed to it or replaced by null first, as the system route does for the
    cpu and the gpu. *)
Theorem falsy_reading_is_as_good_as_null now ok cpuTemp gpuTemp mbTemp w :
  policy_in_bounds (config w) = true ->
  (forall m x, SystemRoute.num_truthy x = false -> trips (config w) m (Some x) = false) /\
  checkAndTriggerShutdown now ok
    (SystemRoute.or_null cpuTemp) (SystemRoute.or_null gpuTemp)
    (SystemRoute.or_null mbTemp) w
  = checkAndTriggerShutdown now ok cpuTemp gpuTemp mbTemp w.
Proof.
  intros Hb. split.
  - intros m x Hx. simpl. apply falsy_not_ge; [now apply bounds_thresholds|exact Hx].
  - unfold checkAndTriggerShutdown, bind, getConfig. cbv beta iota zeta.
    now rewrite verdict_or_null.
Qed.

Lemma falsy_reading_is_as_good_as_null_witness :
  let w := mkWorld (spread defaultConfig [Enabled true]) [] in
  checkAndTriggerShutdown 1000 true None None None w
  = checkAndTriggerShutdown 1000 true (Some 0%float) (Some PrimFloat.nan)
      (Some PrimFloat.neg_zero) w.
Proof.
  intros w.
  apply (falsy_reading_is_as_good_as_null 1000 true (Some 0%float) (Some PrimFloat.nan)
           (Some PrimFloat.neg_zero) w).
  reflexivity.
Defined.

(** * The dashboard *)








(** * The power route *)

(** ** Comparisons of doubles *)

Lemma SFcompare_Gt_Lt x y :
  SFcompare x y = Some Gt -> SFcompare y x = Some Lt.
Proof.
  destruct x as [sx|sx| |sx mx ex], y as [sy|sy| |sy my ey]; simpl;
    try (destruct sx); try (destruct sy); simpl; try congruence.
  all: rewrite (Z.compare_antisym ex ey); destruct (ex ?= ey)%Z; simpl; try congruence.
  all: fold (Pos.compare mx my); fold (Pos.compare my mx).
  all: rewrite (Pos.compare_antisym mx my); destruct (mx ?= my)%positive; simpl; congruence.
Qed.

Lemma not_nan_spec x : PrimFloat.is_nan x = false -> Prim2SF x <> S754_nan.
Proof.
  unfold PrimFloat.is_nan. rewrite FloatAxioms.eqb_spec. unfold SFeqb.
  intros H E. rewrite E in H. discriminate.
Qed.

Lemma SFcompare_None x y :
  SFcompare x y = None -> x = S754_nan \/ y = S754_nan.
Proof.
  destruct x as [sx|sx| |sx mx ex], y as [sy|sy| |sy my ey]; simpl;
    try discriminate; auto.
Qed.

Lemma ltb_leb x y : PrimFloat.ltb x y = true -> PrimFloat.leb x y = true.
Proof.
  rewrite FloatAxioms.ltb_spec, FloatAxioms.leb_spec. unfold SFltb, SFleb.
  now destruct (SFcompare (Prim2SF x) (Prim2SF y)) as [[]|].
Qed.

Lemma not_ltb_leb x y :
  PrimFloat.is_nan x = false -> PrimFloat.is_nan y = false ->
  PrimFloat.ltb y x = false -> PrimFloat.leb x y = true.
Proof.
  intros Hx Hy. apply not_nan_spec in Hx, Hy.
  rewrite FloatAxioms.ltb_spec, FloatAxioms.leb_spec. unfold SFltb, SFleb.
  destruct (SFcompare (Prim2SF y) (Prim2SF x)) as [[]|] eqn:E; try discriminate; intros _.
  - now rewrite (SFcompare_Eq_sym _ _ E).
  - now rewrite (SFcompare_Gt_Lt _ _ E).
  - apply SFcompare_None in E. tauto.
Qed.

Lemma truthy_not_nan p : SystemRoute.num_truthy p = true -> PrimFloat.is_nan p = false.
Proof.
  unfold SystemRoute.num_truthy. intros H.
  apply negb_true_iff, orb_false_iff in H. tauto.
Qed.

(** A number below zero is below 300 and not above zero. *)
Lemma negative_facts p :
  PrimFloat.ltb p 0 = true ->
  PrimFloat.ltb 300 p = false /\ PrimFloat.ltb 0 p = false.
Proof.
  rewrite !FloatAxioms.ltb_spec.
  set (a := Prim2SF 300). vm_compute in a. subst a.
  set (z := Prim2SF 0). vm_compute in z. subst z.
  unfold SFltb.
  destruct (Prim2SF p) as [s|s| |s m e]; simpl; try discriminate;
    destruct s; simpl; try discriminate; auto.
Qed.

(** A usable number that is not below zero is above zero. *)
Lemma positive_facts p :
  SystemRoute.num_truthy p = true ->
  PrimFloat.ltb p 0 = false ->
  PrimFloat.ltb 0 p = true.
Proof.
  unfold SystemRoute.num_truthy, PrimFloat.is_nan, PrimFloat.is_zero.
  rewrite !FloatAxioms.ltb_spec, !FloatAxioms.eqb_spec.
  set (z := Prim2SF 0). vm_compute in z. subst z.
  set (z := Prim2SF PrimFloat.zero). vm_compute in z. subst z.
  unfold SFltb, SFeqb.
  destruct (Prim2SF p) as [s|s| |s m e]; simpl; try discriminate;
    destruct s; simpl; try discriminate; auto.
  all: try (rewrite Z.compare_refl; fold (Pos.compare m m);
            rewrite Pos.compare_refl; simpl; discriminate).
Qed.

Lemma safeDelay_usable p :
  SystemRoute.num_truthy p = true ->
  PowerRoute.safeDelay p
  = if PrimFloat.ltb p 0 then 0%float
    else if PrimFloat.ltb 300 p then 300%float else p.
Proof.
  intros Ht. pose proof (truthy_not_nan p Ht) as Hn.
  unfold PowerRoute.safeDelay. rewrite Ht.
  destruct (PrimFloat.ltb p 0) eqn:Hneg.
  - destruct (negative_facts p Hneg) as [H1 H2].
    assert (Er : PowerRoute.Math_min 300 p = p).
    { unfold PowerRoute.Math_min. rewrite Hn, H1. simpl.
      destruct (PrimFloat.ltb p 300); reflexivity. }
    rewrite Er. unfold PowerRoute.Math_max. rewrite Hn, H2, Hneg. reflexivity.
  - pose proof (positive_facts p Ht Hneg) as Hpos.
    destruct (PrimFloat.ltb 300 p) eqn:Hbig.
    + assert (Er : PowerRoute.Math_min 300 p = 300%float).
      { unfold PowerRoute.Math_min. now rewrite Hn, Hbig. }
      rewrite Er. reflexivity.
    + assert (Er : PowerRoute.Math_min 300 p = p).
      { unfold PowerRoute.Math_min. rewrite Hn, Hbig. simpl.
        destruct (PrimFloat.ltb p 300); reflexivity. }
      rewrite Er. unfold PowerRoute.Math_max. now rewrite Hn, Hpos.
Qed.

Lemma safeDelay_within p : within 0 300 (PowerRoute.safeDelay p) = true.
Proof.
  destruct (SystemRoute.num_truthy p) eqn:Ht.
  - rewrite safeDelay_usable by exact Ht.
    pose proof (truthy_not_nan p Ht) as Hn.
    destruct (PrimFloat.ltb p 0) eqn:Hneg; [reflexivity|].
    destruct (PrimFloat.ltb 300 p) eqn:Hbig; [reflexivity|].
    unfold within, num_ge, num_le.
    rewrite (ltb_leb 0 p (positive_facts p Ht Hneg)).
    now rewrite (not_ltb_leb p 300 Hn eq_refl Hbig).
  - unfold PowerRoute.safeDelay. rewrite Ht. reflexivity.
Qed.

(** ** The delay of a remote shutdown *)

(** X18: the delay the power route uses, as a function of what [parseInt]
    made of the request's [delay]: 10 seconds when that is 0 or NaN, 0 when
    it is negative, 300 when it is above 300, and the value itself
    otherwise.  So asking for 0 gives 10 seconds, while asking for a
    negative delay gives an immediate shutdown. *)
Theorem power_delay_clamp p :
  (SystemRoute.num_truthy p = false -> PowerRoute.safeDelay p = 10%float) /\
  (SystemRoute.num_truthy p = true ->
   PowerRoute.safeDelay p
   = if PrimFloat.ltb p 0 then 0%float
     else if PrimFloat.ltb 300 p then 300%float else p).
Proof.
  split.
  - intros Ht. unfold PowerRoute.safeDelay. rewrite Ht. reflexivity.
  - apply safeDelay_usable.
Qed.

Lemma power_delay_clamp_witness :
  PowerRoute.safeDelay 0 = 10%float /\
  PowerRoute.safeDelay (-5) = 0%float /\
  PowerRoute.safeDelay 45 = 45%float /\
  PowerRoute.safeDelay 301 = 300%float.
Proof.
  split; [apply (power_delay_clamp 0); reflexivity|].
  split; [rewrite (proj2 (power_delay_clamp (-5)%float)) by reflexivity; reflexivity|].
  split; [rewrite (proj2 (power_delay_clamp 45%float)) by reflexivity; reflexivity|].
  rewrite (proj2 (power_delay_clamp 301%float)) by reflexivity; reflexivity.
Defined.

(** X19: whatever the request, whatever [parseInt] returns for its delay
    and whether the command succeeds or not, the power route hands at most
    one command to the operating system, and the delay of a shutdown or
    reboot command lies between 0 and 300 seconds. *)
Theorem power_commands_are_bounded parseInt nullBodyError request outcome :
  let cmds := snd (PowerRoute.POST parseInt nullBodyError request outcome) in
  length cmds <= 1 /\
  Forall (fun cmd => forall d, PowerRoute.delayOf cmd = Some d -> within 0 300 d = true)
         cmds.
Proof.
  unfold PowerRoute.POST.
  destruct request as [f|body]; [simpl; split; [lia|constructor]|].
  destruct body; try (simpl; split; [lia|constructor]).
  simpl.
  destruct (m !! "action") as [[| | |a| |]|]; try (simpl; split; [lia|constructor]).
  unfold PowerRoute.execThen.
  destruct (String.eqb a "shutdown"), (String.eqb a "reboot"), (String.eqb a "cancel"),
    outcome; simpl; (split; [lia|]);
    repeat constructor; simpl; intros d E; try discriminate;
    assert (E' : d = PowerRoute.safeDelay
                       (parseInt (default (JNum 10) (m !! "delay")))) by congruence;
    rewrite E'; apply safeDelay_within.
Qed.

Lemma power_commands_are_bounded_witness :
  let parseInt := fun v : json => match v with JNum x => x | _ => PrimFloat.nan end in
  Forall (fun cmd => forall d, PowerRoute.delayOf cmd = Some d -> within 0 300 d = true)
         (snd (PowerRoute.POST parseInt (PowerRoute.mkFailure "" "")
                 (inr (JObj {[ "action" := JStr "reboot"; "delay" := JNum 1000 ]}))
                 None)).
Proof.
  intros parseInt.
  apply (power_commands_are_bounded parseInt (PowerRoute.mkFailure "" "")
           (inr (JObj {[ "action" := JStr "reboot"; "delay" := JNum 1000 ]})) None).
Defined.

(** X20: the power route answers with success only when it handed exactly
    one command to the operating system and that command succeeded; a
    command that fails is answered with "nothing pending" exactly when its
    error text contains "Unable to abort" or "unable to abort", whichever
    action was requested, and with the 500 answer carrying that text
    otherwise. *)
Theorem power_answers_follow_the_command parseInt nullBodyError request outcome :
  let answer := PowerRoute.POST parseInt nullBodyError request outcome in
  (PowerRoute.is_done (fst answer) = true ->
   outcome = None /\ length (snd answer) = 1) /\
  (forall f, outcome = Some f -> snd answer <> [] ->
     fst answer
     = if includes (PowerRoute.errorText f) "Unable to abort" ||
          includes (PowerRoute.errorText f) "unable to abort"
       then PowerRoute.NothingPending
       else PowerRoute.CommandFailed (PowerRoute.errorText f)).
Proof.
  unfold PowerRoute.POST.
  destruct request as [f|body].
  { simpl. split; [|intros ? _ H; now contradiction H].
    unfold PowerRoute.onError.
    destruct (includes _ _ || includes _ _); discriminate. }
  destruct body;
    try (simpl; split; [discriminate|intros ? _ H; now contradiction H]).
  { simpl. split; [|intros ? _ H; now contradiction H].
    unfold PowerRoute.onError.
    destruct (includes _ _ || includes _ _); discriminate. }
  simpl.
  destruct (m !! "action") as [[| | |a| |]|];
    try (simpl; split; [discriminate|intros ? _ H; now contradiction H]).
  unfold PowerRoute.execThen.
  destruct (String.eqb a "shutdown"), (String.eqb a "reboot"), (String.eqb a "cancel");
    destruct outcome as [f|]; simpl;
    (split;
     [unfold PowerRoute.onError;
      try (destruct (includes _ _ || includes _ _)); try discriminate; auto
     |intros f' E H; try discriminate; try (now contradiction H);
      injection E as <-; reflexivity]).
Qed.

Lemma power_answers_follow_the_command_witness :
  let parseInt := fun v : json => match v with JNum x => x | _ => PrimFloat.nan end in
  let quiet := PowerRoute.mkFailure "" "" in
  let nothing := PowerRoute.mkFailure "Unable to abort the system shutdown" "" in
  fst (PowerRoute.POST parseInt quiet
         (inr (JObj {[ "action" := JStr "shutdown" ]})) (Some nothing))
  = PowerRoute.NothingPending.
Proof.
  intros parseInt quiet nothing.
  destruct (power_answers_follow_the_command parseInt quiet
              (inr (JObj {[ "action" := JStr "shutdown" ]})) (Some nothing)) as [_ H].
  rewrite (H nothing eq_refl); [reflexivity|].
  vm_compute. discriminate.
Defined.
